(** * GivEnergy Modbus: frame transport buffer and write-register codec

    A shallow embedding of [givenergy_modbus/framer.py] and
    [givenergy_modbus/pdu/write_registers.py], with the properties of the
    framing loop, the header check, the write-safety gate and the check code
    stated and proved over it.

    Python objects are records, attribute mutation is explicit state passing
    in a small state-and-exception monad, [bytes] are lists of [byte], keyword
    arguments and the header [dict] are finite maps keyed by strings. *)

From Stdlib Require Import ZArith Lia Bool.
From Stdlib Require Import Strings.Byte.
From stdpp Require Import gmap strings list.

Local Open Scope Z_scope.

(** ** Exceptions and outcomes *)

(** The four messages [InvalidPduState] is raised with in
    [write_registers.py]. *)
Inductive InvalidPduReason : Set :=
| RegisterMustBeSet        (* 'Register must be set' *)
| RegisterValueMustBeSet   (* 'Register value must be set' *)
| ValueNotUnsigned16       (* 'Value ... must be an unsigned 16-bit int' *)
| NotSafeToWrite.          (* '... is not safe to write to' *)

Inductive exn : Set :=
| InvalidPduState (why : InvalidPduReason)
| ValueError
| KeyError
| TypeError
| AttributeError
| StructError                        (* struct.error *)
| ModbusIOException
| InvalidMessageReceivedException.

Inductive outcome (A : Type) : Type :=
| Return (a : A)
| Raise (e : exn).
Arguments Return {A} a.
Arguments Raise {A} e.

Definition raised {A} (o : outcome A) : bool :=
  match o with Return _ => false | Raise _ => true end.

(** ** The state-and-exception monad

    A method of an object with attributes [St] either returns or raises; the
    attribute writes made before a [raise] stay. *)
Module PyM.

Definition M (St A : Type) : Type := St -> outcome A * St.

Definition ret {St A} (a : A) : M St A := fun s => (Return a, s).

Definition raise {St A} (e : exn) : M St A := fun s => (Raise e, s).

Definition bind {St A B} (m : M St A) (k : A -> M St B) : M St B :=
  fun s => match m s with
           | (Return a, s') => k a s'
           | (Raise e, s') => (Raise e, s')
           end.

Definition get {St} : M St St := fun s => (Return s, s).

Definition put {St} (s : St) : M St unit := fun _ => (Return tt, s).

Definition lift {St A} (o : outcome A) : M St A := fun s => (o, s).

(** [while True: body], where [body] answers whether to go round again
    ([false] is [break]).  [None] when the fuel runs out. *)
Fixpoint while_true {St} (fuel : nat) (body : M St bool)
  : St -> option (outcome unit * St) :=
  match fuel with
  | O => fun _ => None
  | S fuel' => fun s =>
      match body s with
      | (Return true, s') => while_true fuel' body s'
      | (Return false, s') => Some (Return tt, s')
      | (Raise e, s') => Some (Raise e, s')
      end
  end.

End PyM.
Import PyM.

Notation "'let*' x ':=' c1 'in' c2" := (bind c1 (fun x => c2))
  (at level 10, x name, c1 at level 100, c2 at level 200, only parsing).
Notation "'do*' c1 'in' c2" := (bind c1 (fun _ => c2))
  (at level 10, c1 at level 100, c2 at level 200, only parsing).

(** ** Bytes, [struct] and slices *)

Definition byte_to_Z (b : byte) : Z := Z.of_N (Byte.to_N b).

(** The byte of value [z], for [0 <= z <= 255]. *)
Definition byte_of_Z (z : Z) : byte :=
  match Byte.of_N (Z.to_N z) with
  | Some b => b
  | None => x00
  end.

Module Struct.

(** [struct.pack('>B', v)] *)
Definition pack_B (v : Z) : outcome (list byte) :=
  if (0 <=? v) && (v <=? 0xFF) then Return [byte_of_Z v]
  else Raise StructError.

(** [struct.pack('>H', v)] *)
Definition pack_H (v : Z) : outcome (list byte) :=
  if (0 <=? v) && (v <=? 0xFFFF)
  then Return [byte_of_Z (v / 256); byte_of_Z (v mod 256)]
  else Raise StructError.

(** [struct.unpack('>H', bs)] on exactly two bytes *)
Definition unpack_H (hi lo : byte) : Z :=
  256 * byte_to_Z hi + byte_to_Z lo.

(** [struct.pack('>HHHBB', tid, pid, len, uid, fid)] *)
Definition pack_HHHBB (tid pid len uid fid : Z) : outcome (list byte) :=
  match pack_H tid, pack_H pid, pack_H len, pack_B uid, pack_B fid with
  | Return a, Return b, Return c, Return d, Return e =>
      Return (a ++ b ++ c ++ d ++ e)
  | _, _, _, _, _ => Raise StructError
  end.

(** [struct.unpack('>HHHBB', bs)]: [bs] must be exactly 8 bytes long. *)
Definition unpack_HHHBB (bs : list byte) : outcome (Z * Z * Z * Z * Z) :=
  match bs with
  | [t1; t0; p1; p0; l1; l0; u; f] =>
      Return (unpack_H t1 t0, unpack_H p1 p0, unpack_H l1 l0,
              byte_to_Z u, byte_to_Z f)
  | _ => Raise StructError
  end.

End Struct.

(** The two bytes [struct.pack('>H', v)] lays out. *)
Definition uint16_bytes (v : Z) : list byte :=
  [byte_of_Z (v / 256); byte_of_Z (v mod 256)].

(** The eight bytes [struct.pack('>HHHBB', ...)] lays out. *)
Definition header_bytes (tid pid len uid fid : Z) : list byte :=
  [byte_of_Z (tid / 256); byte_of_Z (tid mod 256);
   byte_of_Z (pid / 256); byte_of_Z (pid mod 256);
   byte_of_Z (len / 256); byte_of_Z (len mod 256);
   byte_of_Z uid; byte_of_Z fid].

(** Python's slice bounds: a negative bound counts from the end, and both
    are clipped to the sequence. *)
Definition py_bound (len i : Z) : Z :=
  if i <? 0 then Z.max 0 (len + i) else Z.min i len.

(** [l[lo:hi]] *)
Definition py_slice {A} (l : list A) (lo hi : Z) : list A :=
  let n := Z.of_nat (length l) in
  let a := py_bound n lo in
  let b := py_bound n hi in
  take (Z.to_nat (b - a)) (drop (Z.to_nat a) l).

(** [l[lo:]] *)
Definition py_slice_from {A} (l : list A) (lo : Z) : list A :=
  drop (Z.to_nat (py_bound (Z.of_nat (length l)) lo)) l.

(** [l[:hi]] *)
Definition py_slice_to {A} (l : list A) (hi : Z) : list A :=
  take (Z.to_nat (py_bound (Z.of_nat (length l)) hi)) l.

(** ** The framer ([framer.py]) *)

(** The attributes [processIncomingPacket] and its helpers read and write.
    [_hsize] is set to [0x08] by [__init__] and assigned nowhere else;
    [_check], [decoder] and [client] are never assigned after [__init__]. *)
Record Framer : Type := mkFramer {
  _buffer : list byte;
  _length : Z;
}.

Definition _hsize : Z := 0x08.

(** [GivEnergyModbusFramer.__init__] *)
Definition Framer_init : Framer := {| _buffer := []; _length := 0 |}.

Module GivEnergyModbusFramer.

(** [def isFrameReady(self)] *)
Definition isFrameReady : M Framer bool :=
  let* self := get in
  ret (Z.of_nat (length (_buffer self)) >=? _hsize).

(** [def resetFrame(self)] *)
Definition resetFrame : M Framer unit :=
  put {| _buffer := []; _length := 0 |}.

(** [def addToFrame(self, message)] *)
Definition addToFrame (message : list byte) : M Framer unit :=
  let* self := get in
  put {| _buffer := _buffer self ++ message; _length := _length self |}.

(** [def advanceFrame(self)] *)
Definition advanceFrame : M Framer unit :=
  let* self := get in
  let length := _hsize + _length self - 2 in
  put {| _buffer := py_slice_from (_buffer self) length; _length := 0 |}.

(** [def getFrame(self)] *)
Definition getFrame : M Framer (list byte) :=
  let* self := get in
  ret (py_slice (_buffer self) _hsize (_hsize + _length self - 2)).

(** [def getRawFrame(self)] *)
Definition getRawFrame : M Framer (list byte) :=
  let* self := get in
  ret (_buffer self).

(** [dict(transaction=tid, protocol=pid, length=len_, unit=uid, fcode=fid)] *)
Definition header_dict (tid pid len_ uid fid : Z) : gmap string Z :=
  <["transaction" := tid]> (<["protocol" := pid]> (<["length" := len_]>
    (<["unit" := uid]> (<["fcode" := fid]> ∅)))).

(** The test [tid != 0x5959 or pid != 0x1 or uid != 0x1 or fid != 0x2]. *)
Definition sentinel_mismatch (tid pid uid fid : Z) : bool :=
  negb (tid =? 0x5959) || negb (pid =? 0x1)
  || negb (uid =? 0x1) || negb (fid =? 0x2).

(** [def decode_data(self, data)]; [data] is not read, the header comes
    from [self._buffer]. *)
Definition decode_data (data : list byte) : M Framer (gmap string Z) :=
  let* ready := isFrameReady in
  if ready then
    let* self := get in
    let* fields := lift (Struct.unpack_HHHBB (py_slice_to (_buffer self) _hsize)) in
    let '(tid, pid, len_, uid, fid) := fields in
    let header := header_dict tid pid len_ uid fid in
    if sentinel_mismatch tid pid uid fid
    then do* resetFrame in raise ValueError
    else ret header
  else ret ∅.

(** [d[key]] on a [dict] *)
Definition getitem (d : gmap string Z) (key : string) : M Framer Z :=
  match d !! key with
  | Some v => ret v
  | None => raise KeyError
  end.

(** [def checkFrame(self)] *)
Definition checkFrame : M Framer bool :=
  let* ready := isFrameReady in
  if ready then
    let* self := get in
    let* header := decode_data (_buffer self) in
    let* len_ := getitem header "length" in
    let* self := get in
    do* put {| _buffer := _buffer self; _length := len_ |} in
    let* self := get in
    if _length self <? 2 then
      do* advanceFrame in ret false
    else if Z.of_nat (length (_buffer self)) >=? _hsize + _length self - 2
    then ret true
    else ret false
  else ret false.

(** [def populateResult(self, result)]: a no-op. *)
Definition populateResult {PDU} (result : PDU) : M Framer unit := ret tt.

(** [struct.pack(self.FRAME_HEAD, 0x5959, 0x0001, n + 2, 0x01, 0x02)], the
    constant header [buildPacket] puts before [n] bytes of PDU. *)
Definition frame_head (n : Z) : outcome (list byte) :=
  Struct.pack_HHHBB 0x5959 0x0001 (n + 2) 0x01 0x02.

(** [def buildPacket(self, message)], given what [message.encode()]
    evaluates to (it is called twice, for the length and for the body; the
    header is packed before the second call). *)
Definition buildPacket (encoded : outcome (list byte)) : outcome (list byte) :=
  match encoded with
  | Raise e => Raise e
  | Return pdu =>
      match frame_head (Z.of_nat (length pdu)) with
      | Raise e => Raise e
      | Return head => Return (head ++ pdu)
      end
  end.

(** *** Processing a stream

    The decoder ([self.decoder], an [IModbusDecoder]) and the callback are
    the caller's.  [decoder.decode] returns a PDU, returns [None], or
    raises; the callback is recorded as the list of PDUs it was called
    with, in call order. *)
Section Processing.

Context {PDU : Type}.
Variable decoder_decode : list byte -> outcome (option PDU).
Variable function_code : PDU -> Z.

Record Run : Type := mkRun {
  framer : Framer;
  callback_calls : list PDU;
}.

(** A framer method run on the framer of a [Run]. *)
Definition on_framer {A} (m : M Framer A) : M Run A :=
  fun w => let '(o, f) := m (framer w) in
           (o, {| framer := f; callback_calls := callback_calls w |}).

(** [callback(result)] *)
Definition callback (result : PDU) : M Run unit :=
  fun w => (Return tt, {| framer := framer w;
                          callback_calls := callback_calls w ++ [result] |}).

(** [def _process(self, callback, error=False)] *)
Definition _process (error : bool) : M Run unit :=
  let* result :=
    (if error then
       let* data := on_framer getRawFrame in
       let* result := lift (decoder_decode data) in
       match result with
       | None => raise AttributeError       (* [None.function_code] *)
       | Some r =>
           if function_code r <? 0x80
           then raise InvalidMessageReceivedException
           else ret r
       end
     else
       let* data := on_framer getFrame in
       let* result := lift (decoder_decode data) in
       match result with
       | None => raise ModbusIOException
       | Some r => ret r
       end) in
  do* on_framer (populateResult result) in
  do* on_framer advanceFrame in
  callback result.

(** One turn of the [while True] loop of [processIncomingPacket];
    [false] is the [break]. *)
Definition process_step : M Run bool :=
  let* ready := on_framer isFrameReady in
  if negb ready then ret false
  else
    let* ok := on_framer checkFrame in
    do* (if negb ok then on_framer resetFrame else _process false) in
    ret true.

(** [def processIncomingPacket(self, data, callback)], with the fuel of
    the loop explicit. *)
Definition processIncomingPacket_fuel (fuel : nat) (data : list byte)
  : Run -> option (outcome unit * Run) :=
  fun w =>
    match on_framer (addToFrame data) w with
    | (Return _, w') => while_true fuel process_step w'
    | (Raise e, w') => Some (Raise e, w')
    end.

(** Every turn that does not leave the loop shortens the buffer, so one
    more turn than there are buffered bytes is enough
    ([processIncomingPacket_returns] below). *)
Definition processIncomingPacket (data : list byte)
  : Run -> option (outcome unit * Run) :=
  fun w =>
    processIncomingPacket_fuel
      (S (length (_buffer (framer w) ++ data))) data w.

(** Successive deliveries from the transport: one call per chunk, until a
    call raises. *)
Fixpoint feed_chunks (chunks : list (list byte)) (w : Run)
  : option (outcome unit * Run) :=
  match chunks with
  | [] => Some (Return tt, w)
  | data :: rest =>
      match processIncomingPacket data w with
      | Some (Return _, w') => feed_chunks rest w'
      | other => other
      end
  end.

Definition Run_init : Run :=
  {| framer := Framer_init; callback_calls := [] |}.

(** The state [resetFrame] leaves, with the callback's history. *)
Definition reset_run (calls : list PDU) : Run :=
  {| framer := {| _buffer := []; _length := 0 |}; callback_calls := calls |}.

End Processing.

End GivEnergyModbusFramer.


(** ** Library code the codec calls *)

(** [crccheck.crc.CrcModbus]: CRC-16/MODBUS, run by the generic engine of
    [crccheck] (width 16, polynomial 0x8005, initial value 0xFFFF, input and
    output reflected, no final XOR). *)
Module CrcModbus.

Definition _width : nat := 16.
Definition _poly : Z := 0x8005.
Definition _initvalue : Z := 0xFFFF.
Definition _reflect_input : bool := true.
Definition _reflect_output : bool := true.
Definition _xor_output : Z := 0x0000.

(** [reflectbitorder(width, value)]: the low [width] bits of [value], in
    reverse order. *)
Fixpoint reflectbitorder (width : nat) (value : Z) : Z :=
  match width with
  | O => 0
  | S w =>
      Z.lor (Z.shiftl (Z.land value 1) (Z.of_nat w))
            (reflectbitorder w (Z.shiftr value 1))
  end.

(** [highbit], [mask] and [shift] of [process] (the width is not below 8). *)
Definition highbit : Z := Z.shiftl 1 (Z.of_nat _width - 1).
Definition mask : Z := Z.lor (Z.shiftl (highbit - 1) 1) 0x1.
Definition shift : Z := Z.of_nat _width - 8.

(** One turn of [for i in range(0, 8)]. *)
Definition shift_one (crc : Z) : Z :=
  if negb (Z.land crc highbit =? 0)
  then Z.lxor (Z.shiftl crc 1) _poly
  else Z.shiftl crc 1.

(** The body of [for byte in data]. *)
Definition process_byte (crc : Z) (b : byte) : Z :=
  let byte := if _reflect_input then reflectbitorder 8 (byte_to_Z b)
              else byte_to_Z b in
  let crc := Z.lxor crc (Z.shiftl byte shift) in
  let crc := Nat.iter 8 shift_one crc in
  Z.land crc mask.

(** [process(data)], from the initial value. *)
Definition process (data : list byte) : Z :=
  fold_left process_byte data _initvalue.

(** [final()] *)
Definition final (crc : Z) : Z :=
  let crc := if _reflect_output then reflectbitorder _width crc else crc in
  Z.lxor crc _xor_output.

(** [CrcModbus().process(data).final()] *)
Definition calc (data : list byte) : Z := final (process data).

End CrcModbus.

(** The Modbus CRC-16 as the Modbus serial-line guide words it: the
    register starts at 0xFFFF; each byte is XORed into its low half, then
    eight times the register is shifted right and, when the bit shifted out
    was 1, XORed with 0xA001.  This is the reference the check code is
    compared with. *)
Definition crc16_modbus_shift (crc : Z) : Z :=
  if Z.testbit crc 0 then Z.lxor (Z.shiftr crc 1) 0xA001 else Z.shiftr crc 1.

Definition crc16_modbus_byte (crc : Z) (b : byte) : Z :=
  Nat.iter 8 crc16_modbus_shift (Z.lxor crc (byte_to_Z b)).

Definition crc16_modbus (data : list byte) : Z :=
  fold_left crc16_modbus_byte data 0xFFFF.

(** The two algorithms agree on one byte's worth of shifts from the register
    value [c]; checked below for each of the 65536 values. *)
Definition crc_turn_agrees (c : Z) : bool :=
  CrcModbus.reflectbitorder 16
    (Z.land (Nat.iter 8 CrcModbus.shift_one c) 0xFFFF)
  =? Nat.iter 8 crc16_modbus_shift (CrcModbus.reflectbitorder 16 c).

(** [z; z + 1; ...], [n] of them. *)
Fixpoint Z_upto (n : nat) (z : Z) : list Z :=
  match n with
  | O => []
  | S n' => z :: Z_upto n' (z + 1)
  end.

(** ** Registers and values *)

(** [HoldingRegister] ([model/register.py]) is not among the sources: it is
    taken as a parameter, an [Enum] whose members have an integer [value]
    and a [name] and are looked up by either. *)
Class RegisterCatalogue : Type := {
  HoldingRegister : Type;
  HoldingRegister_eq_dec :: EqDecision HoldingRegister;
  HoldingRegister_countable :: Countable HoldingRegister;
  (** [r.value] *)
  register_value : HoldingRegister -> Z;
  (** [r.name] *)
  register_name : HoldingRegister -> string;
  (** [HoldingRegister(v)]; [None] is [ValueError] *)
  register_of_value : Z -> option HoldingRegister;
  (** [HoldingRegister[name]]; [None] is [KeyError] *)
  register_of_name : string -> option HoldingRegister;
}.

(** What makes the four operations those of an [Enum]: a lookup finds the
    member with that value, or that name, and no other. *)
Class EnumLaws `{RegisterCatalogue} : Prop := {
  register_of_value_spec v r :
    register_of_value v = Some r <-> register_value r = v;
  register_of_name_spec s r :
    register_of_name s = Some r <-> register_name r = s;
}.

(** The Python values an attribute or a keyword argument can hold here. *)
Inductive PyVal `{RegisterCatalogue} : Type :=
| VNone
| VInt (z : Z)
| VStr (s : string)
| VBytes (b : list byte)
| VRegister (r : HoldingRegister).

(** [pymodbus.payload.BinaryPayloadBuilder], big-endian: the payload built
    so far. *)
Module BinaryPayloadBuilder.

Definition int_arg `{RegisterCatalogue} (v : PyVal) : outcome Z :=
  match v with
  | VInt z => Return z
  | _ => Raise StructError
  end.

(** [builder.add_8bit_uint(value)] *)
Definition add_8bit_uint (value : Z) (builder : list byte)
  : outcome (list byte) :=
  match Struct.pack_B value with
  | Return bs => Return (builder ++ bs)
  | Raise e => Raise e
  end.

(** [builder.add_16bit_uint(value)] *)
Definition add_16bit_uint (value : Z) (builder : list byte)
  : outcome (list byte) :=
  match Struct.pack_H value with
  | Return bs => Return (builder ++ bs)
  | Raise e => Raise e
  end.

End BinaryPayloadBuilder.

(** Modelled from the spec: [PayloadDecoder] ([pdu/__init__.py]) is not among
    the sources.  A decoder is a byte span and a read position;
    [decode_16bit_uint] reads two bytes big-endian and fails when the span
    is shorter than required. *)
Module PayloadDecoder.

Record t : Type := mk {
  _payload : list byte;
  _pointer : Z;
}.

Definition decode_16bit_uint : M t Z :=
  let* self := get in
  do* put {| _payload := _payload self; _pointer := _pointer self + 2 |} in
  match py_slice (_payload self) (_pointer self) (_pointer self + 2) with
  | [hi; lo] => ret (Struct.unpack_H hi lo)
  | _ => raise StructError
  end.

End PayloadDecoder.

(** ** The write-register codec ([pdu/write_registers.py]) *)

(** [TransparentMessage], [TransparentRequest] and [TransparentResponse]
    ([pdu/transparent.py]) are not among the sources.  What
    [write_registers.py] calls on them through [super()] is taken as a
    parameter: the attributes they keep, their constructor, their validity
    check, what they put into the payload builder ahead of the register
    (the adapter serial, the padding, the slave address and the inner
    function code of the frame layout in [framer.py]), and the check code a
    response appends. *)
Class TransparentBase `{RegisterCatalogue} : Type := {
  Transparent : Type;
  (** [super().__init__], given the keyword arguments *)
  transparent_init : gmap string PyVal -> outcome Transparent;
  (** [self.slave_address] *)
  slave_address : Transparent -> PyVal;
  (** [super().ensure_valid_state()] *)
  transparent_ensure_valid_state : Transparent -> outcome unit;
  (** [super()._encode_function_data()], on the payload builder *)
  transparent_encode_function_data :
    Transparent -> list byte -> outcome (list byte);
  (** [TransparentResponse._update_check_code()], on the payload builder *)
  response_update_check_code :
    Transparent -> list byte -> outcome (list byte);
}.

(** [WRITE_SAFE_REGISTERS], by name. *)
Definition WRITE_SAFE_NAMES : list string :=
  [ "BATTERY_CHARGE_LIMIT";
    "BATTERY_DISCHARGE_LIMIT";
    "BATTERY_DISCHARGE_MIN_POWER_RESERVE";
    "BATTERY_POWER_MODE";
    "BATTERY_SOC_RESERVE";
    "CHARGE_SLOT_1_END";
    "CHARGE_SLOT_1_START";
    "CHARGE_SLOT_2_END";
    "CHARGE_SLOT_2_START";
    "CHARGE_TARGET_SOC";
    "DISCHARGE_SLOT_1_END";
    "DISCHARGE_SLOT_1_START";
    "DISCHARGE_SLOT_2_END";
    "DISCHARGE_SLOT_2_START";
    "ENABLE_CHARGE";
    "ENABLE_CHARGE_TARGET";
    "ENABLE_DISCHARGE";
    "SYSTEM_TIME_DAY";
    "SYSTEM_TIME_HOUR";
    "SYSTEM_TIME_MINUTE";
    "SYSTEM_TIME_MONTH";
    "SYSTEM_TIME_SECOND";
    "SYSTEM_TIME_YEAR" ].

(** [WRITE_SAFE_REGISTERS = {HoldingRegister[x] for x in (...)}].  A name
    the catalogue lacks raises [KeyError] while the module is imported, so
    that none of its functions ever runs; here such a name adds nothing to
    the set. *)
Definition WRITE_SAFE_REGISTERS `{RegisterCatalogue} : gset HoldingRegister :=
  list_to_set (omap register_of_name WRITE_SAFE_NAMES).

Module WriteHoldingRegister.

Section Codec.

Context `{TransparentBase}.

(** The concrete class of a message. *)
Inductive Class_ : Set :=
| WriteHoldingRegisterRequest
| WriteHoldingRegisterResponse.

(** A [WriteHoldingRegister] object.  [_builder] and [check] are [None]
    until [encode] and [_update_check_code] assign them. *)
Record t : Type := mk {
  cls : Class_;
  transparent : Transparent;
  register : option HoldingRegister;
  value : PyVal;
  check : option Z;
  _builder : option (list byte);
}.

Definition inner_function_code : Z := 6.

(** A [WriteHoldingRegisterRequest] object for register [r] and value [v]. *)
Definition request (base : Transparent) (r : HoldingRegister) (v : PyVal)
           (c : option Z) (b : option (list byte)) : t :=
  {| cls := WriteHoldingRegisterRequest; transparent := base;
     register := Some r; value := v; check := c; _builder := b |}.

(** [kwargs.get(key)] *)
Definition kwargs_get (kwargs : gmap string PyVal) (key : string) : PyVal :=
  default VNone (kwargs !! key).

(** [def __init__(self, **kwargs)] *)
Definition __init__ (c : Class_) (kwargs : gmap string PyVal) : outcome t :=
  match transparent_init kwargs with
  | Raise e => Raise e
  | Return base =>
      let new r := Return {| cls := c; transparent := base;
                             register := Some r;
                             value := kwargs_get kwargs "value";
                             check := None; _builder := None |} in
      match kwargs_get kwargs "register" with
      | VRegister r => new r
      | VInt z =>
          match register_of_value z with
          | Some r => new r
          | None => Raise ValueError
          end
      | VStr s =>
          match register_of_name s with
          | Some r => new r
          | None => Raise KeyError
          end
      | VNone => Raise (InvalidPduState RegisterMustBeSet)
      | VBytes _ => Raise ValueError
      end
  end.

(** [def ensure_valid_state(self)] of [WriteHoldingRegister].  The test
    [0 > self.value > 0xFFFF] is Python's chained comparison,
    [0 > self.value and self.value > 0xFFFF]. *)
Definition base_ensure_valid_state (self : t) : outcome unit :=
  match transparent_ensure_valid_state (transparent self) with
  | Raise e => Raise e
  | Return _ =>
      match register self with
      | None => Raise (InvalidPduState RegisterMustBeSet)
      | Some _ =>
          match value self with
          | VNone => Raise (InvalidPduState RegisterValueMustBeSet)
          | VInt v =>
              if (0 >? v) && (v >? 0xFFFF)
              then Raise (InvalidPduState ValueNotUnsigned16)
              else Return tt
          | _ => Raise TypeError
          end
      end
  end.

(** [def ensure_valid_state(self)] of [WriteHoldingRegisterRequest] *)
Definition request_ensure_valid_state (self : t) : outcome unit :=
  match base_ensure_valid_state self with
  | Raise e => Raise e
  | Return _ =>
      match register self with
      | Some r =>
          if decide (r ∉ WRITE_SAFE_REGISTERS)
          then Raise (InvalidPduState NotSafeToWrite)
          else Return tt
      | None => Raise AttributeError
      end
  end.

(** [def ensure_valid_state(self)] of [WriteHoldingRegisterResponse]: a
    register outside the list is logged, not refused. *)
Definition response_ensure_valid_state (self : t) : outcome unit :=
  match base_ensure_valid_state self with
  | Raise e => Raise e
  | Return _ => Return tt
  end.

(** [self.ensure_valid_state()] *)
Definition ensure_valid_state (self : t) : outcome unit :=
  match cls self with
  | WriteHoldingRegisterRequest => request_ensure_valid_state self
  | WriteHoldingRegisterResponse => response_ensure_valid_state self
  end.

(** [self.register.value] *)
Definition register_value_of (self : t) : outcome Z :=
  match register self with
  | Some r => Return (register_value r)
  | None => Raise AttributeError
  end.

(** [self._builder] *)
Definition builder_of (self : t) : outcome (list byte) :=
  match _builder self with
  | Some b => Return b
  | None => Raise AttributeError
  end.

Definition set_builder (b : list byte) : M t unit :=
  let* self := get in
  put {| cls := cls self; transparent := transparent self;
         register := register self; value := value self;
         check := check self; _builder := Some b |}.

Definition set_check (c : Z) : M t unit :=
  let* self := get in
  put {| cls := cls self; transparent := transparent self;
         register := register self; value := value self;
         check := Some c; _builder := _builder self |}.

(** [self._builder.add_16bit_uint(v)] *)
Definition builder_add_16bit_uint (v : outcome Z) : M t unit :=
  let* self := get in
  let* b := lift (builder_of self) in
  let* z := lift v in
  let* b' := lift (BinaryPayloadBuilder.add_16bit_uint z b) in
  set_builder b'.

(** The bytes [_update_check_code] of the request runs the CRC over. *)
Definition crc_builder (self : t) : outcome (list byte) :=
  match BinaryPayloadBuilder.add_8bit_uint inner_function_code [] with
  | Raise e => Raise e
  | Return b1 =>
      match register_value_of self with
      | Raise e => Raise e
      | Return r =>
          match BinaryPayloadBuilder.add_16bit_uint r b1 with
          | Raise e => Raise e
          | Return b2 =>
              match BinaryPayloadBuilder.int_arg (value self) with
              | Raise e => Raise e
              | Return v => BinaryPayloadBuilder.add_16bit_uint v b2
              end
          end
      end
  end.

(** [def _update_check_code(self)] of [WriteHoldingRegisterRequest] *)
Definition request_update_check_code : M t unit :=
  let* self := get in
  let* bytes := lift (crc_builder self) in
  do* set_check (CrcModbus.calc bytes) in
  builder_add_16bit_uint (Return (CrcModbus.calc bytes)).

(** [self._update_check_code()] *)
Definition _update_check_code : M t unit :=
  let* self := get in
  match cls self with
  | WriteHoldingRegisterRequest => request_update_check_code
  | WriteHoldingRegisterResponse =>
      let* b := lift (builder_of self) in
      let* b' := lift (response_update_check_code (transparent self) b) in
      set_builder b'
  end.

(** [def _encode_function_data(self)] *)
Definition _encode_function_data : M t unit :=
  let* self := get in
  let* b := lift (builder_of self) in
  let* b' := lift (transparent_encode_function_data (transparent self) b) in
  do* set_builder b' in
  let* self := get in
  do* builder_add_16bit_uint (register_value_of self) in
  let* self := get in
  do* builder_add_16bit_uint (BinaryPayloadBuilder.int_arg (value self)) in
  _update_check_code.

(** Modelled from the spec: [encode] is inherited from the classes of
    [pdu/__init__.py] and [pdu/transparent.py], which are not among the
    sources.  The state is checked first, before any byte is produced; then
    a fresh builder is filled by [_encode_function_data] and its content
    returned. *)
Definition encode : M t (list byte) :=
  let* self := get in
  do* lift (ensure_valid_state self) in
  do* set_builder [] in
  do* _encode_function_data in
  let* self := get in
  lift (builder_of self).

(** [def _decode_inner_function(cls, decoder, **attrs)] *)
Definition _decode_inner_function (c : Class_) (attrs : gmap string PyVal)
  : M PayloadDecoder.t t :=
  let* r := PayloadDecoder.decode_16bit_uint in
  match register_of_value r with
  | None => raise ValueError
  | Some reg =>
      let attrs := <["register" := VRegister reg]> attrs in
      let* v := PayloadDecoder.decode_16bit_uint in
      let attrs := <["value" := VInt v]> attrs in
      let* c_ := PayloadDecoder.decode_16bit_uint in
      let attrs := <["check" := VInt c_]> attrs in
      lift (__init__ c attrs)
  end.

(** [VRegister r] for a register, [None] otherwise. *)
Definition register_arg (self : t) : PyVal :=
  match register self with
  | Some r => VRegister r
  | None => VNone
  end.

(** The keywords of [expected_response]:
    [register=self.register, value=self.value,
     slave_address=self.slave_address]. *)
Definition expected_response_kwargs (self : t) : gmap string PyVal :=
  <["register" := register_arg self]>
    (<["value" := value self]>
       (<["slave_address" := slave_address (transparent self)]> ∅)).

(** [def expected_response(self)] *)
Definition expected_response (self : t) : outcome t :=
  __init__ WriteHoldingRegisterResponse (expected_response_kwargs self).

(** Modelled from the spec: [encode_request(register, value)], a
    [WriteHoldingRegisterRequest] built from the two keywords and
    encoded. *)
Definition encode_request (register_ value_ : PyVal)
  : outcome (list byte) :=
  match __init__ WriteHoldingRegisterRequest
          (<["register" := register_]> (<["value" := value_]> ∅)) with
  | Raise e => Raise e
  | Return self => fst (encode self)
  end.

End Codec.

End WriteHoldingRegister.

(** ** A catalogue, a base class and a decoder to run the model on

    The theorems below hold for every catalogue and every base class.  To
    evaluate the model on concrete inputs, this catalogue has the
    twenty-three write-safe names and one more register, at consecutive
    placeholder addresses from 0x1234 on; the base class keeps the slave
    address and writes the request layout of the [framer.py] docstring
    (serial [AB1234G567], eight bytes of padding, address, function 6); the
    decoder hands the PDU bytes back. *)
Module Sample.

Inductive reg : Set :=
| BATTERY_CHARGE_LIMIT
| BATTERY_DISCHARGE_LIMIT
| BATTERY_DISCHARGE_MIN_POWER_RESERVE
| BATTERY_POWER_MODE
| BATTERY_SOC_RESERVE
| CHARGE_SLOT_1_END
| CHARGE_SLOT_1_START
| CHARGE_SLOT_2_END
| CHARGE_SLOT_2_START
| CHARGE_TARGET_SOC
| DISCHARGE_SLOT_1_END
| DISCHARGE_SLOT_1_START
| DISCHARGE_SLOT_2_END
| DISCHARGE_SLOT_2_START
| ENABLE_CHARGE
| ENABLE_CHARGE_TARGET
| ENABLE_DISCHARGE
| SYSTEM_TIME_DAY
| SYSTEM_TIME_HOUR
| SYSTEM_TIME_MINUTE
| SYSTEM_TIME_MONTH
| SYSTEM_TIME_SECOND
| SYSTEM_TIME_YEAR
| DEVICE_TYPE_CODE.

Definition members : list reg :=
  [ BATTERY_CHARGE_LIMIT; BATTERY_DISCHARGE_LIMIT;
    BATTERY_DISCHARGE_MIN_POWER_RESERVE; BATTERY_POWER_MODE;
    BATTERY_SOC_RESERVE; CHARGE_SLOT_1_END; CHARGE_SLOT_1_START;
    CHARGE_SLOT_2_END; CHARGE_SLOT_2_START; CHARGE_TARGET_SOC;
    DISCHARGE_SLOT_1_END; DISCHARGE_SLOT_1_START; DISCHARGE_SLOT_2_END;
    DISCHARGE_SLOT_2_START; ENABLE_CHARGE; ENABLE_CHARGE_TARGET;
    ENABLE_DISCHARGE; SYSTEM_TIME_DAY; SYSTEM_TIME_HOUR; SYSTEM_TIME_MINUTE;
    SYSTEM_TIME_MONTH; SYSTEM_TIME_SECOND; SYSTEM_TIME_YEAR;
    DEVICE_TYPE_CODE ].

Definition index (r : reg) : nat :=
  match r with
  | BATTERY_CHARGE_LIMIT => 0
  | BATTERY_DISCHARGE_LIMIT => 1
  | BATTERY_DISCHARGE_MIN_POWER_RESERVE => 2
  | BATTERY_POWER_MODE => 3
  | BATTERY_SOC_RESERVE => 4
  | CHARGE_SLOT_1_END => 5
  | CHARGE_SLOT_1_START => 6
  | CHARGE_SLOT_2_END => 7
  | CHARGE_SLOT_2_START => 8
  | CHARGE_TARGET_SOC => 9
  | DISCHARGE_SLOT_1_END => 10
  | DISCHARGE_SLOT_1_START => 11
  | DISCHARGE_SLOT_2_END => 12
  | DISCHARGE_SLOT_2_START => 13
  | ENABLE_CHARGE => 14
  | ENABLE_CHARGE_TARGET => 15
  | ENABLE_DISCHARGE => 16
  | SYSTEM_TIME_DAY => 17
  | SYSTEM_TIME_HOUR => 18
  | SYSTEM_TIME_MINUTE => 19
  | SYSTEM_TIME_MONTH => 20
  | SYSTEM_TIME_SECOND => 21
  | SYSTEM_TIME_YEAR => 22
  | DEVICE_TYPE_CODE => 23
  end%nat.

Definition name (r : reg) : string :=
  match r with
  | DEVICE_TYPE_CODE => "DEVICE_TYPE_CODE"
  | _ => nth (index r) WRITE_SAFE_NAMES ""
  end.

Definition value (r : reg) : Z := 0x1234 + Z.of_nat (index r).

Definition of_value (v : Z) : option reg :=
  List.find (fun r => value r =? v) members.

Definition of_name (s : string) : option reg :=
  List.find (fun r => String.eqb (name r) s) members.

#[local] Instance reg_eq_dec : EqDecision reg.
Proof. solve_decision. Defined.

#[local] Instance reg_countable : Countable reg :=
  inj_countable' index (fun i => nth i members DEVICE_TYPE_CODE)
    (fun r => match r with BATTERY_CHARGE_LIMIT => eq_refl | _ => eq_refl end).

Definition catalogue : RegisterCatalogue :=
  {| HoldingRegister := reg;
     register_value := value;
     register_name := name;
     register_of_value := of_value;
     register_of_name := of_name |}.

(** [AB1234G567], then eight bytes of padding. *)
Definition preamble : list byte :=
  [x41; x42; x31; x32; x33; x34; x47; x35; x36; x37;
   x00; x00; x00; x00; x00; x00; x00; x08].

Definition encode_function_data (addr : @PyVal catalogue)
           (builder : list byte) : outcome (list byte) :=
  match BinaryPayloadBuilder.int_arg addr with
  | Raise e => Raise e
  | Return a =>
      match BinaryPayloadBuilder.add_8bit_uint a (builder ++ preamble) with
      | Raise e => Raise e
      | Return b => BinaryPayloadBuilder.add_8bit_uint 6 b
      end
  end.

Definition base : @TransparentBase catalogue :=
  {| Transparent := @PyVal catalogue;
     transparent_init := fun kwargs =>
       Return (default (VInt 0x32) (kwargs !! "slave_address"));
     slave_address := fun addr => addr;
     transparent_ensure_valid_state := fun _ => Return tt;
     transparent_encode_function_data := encode_function_data;
     response_update_check_code := fun _ builder =>
       BinaryPayloadBuilder.add_16bit_uint 0 builder |}.

(** The request object for register [r] and value [v], slave address 0x32,
    as [__init__] leaves it. *)
Definition write_request (r : reg) (v : Z) : @WriteHoldingRegister.t catalogue base :=
  @WriteHoldingRegister.request catalogue base (VInt 0x32) r (VInt v) None None.

(** What the base class puts ahead of the register for that request. *)
Definition request_head : list byte := preamble ++ [x32; x06].

(** A decoder that hands back the PDU bytes. *)
Definition raw_decode (data : list byte) : outcome (option (list byte)) :=
  Return (Some data).

Definition raw_function_code (pdu : list byte) : Z := 0.

End Sample.

(** [def _extra_shape_hash_keys(self)]: the tuple of the base class, which
    is a parameter as the base class is, with the register appended. *)
Definition _extra_shape_hash_keys `{TransparentBase}
           (super_extra_shape_hash_keys : Transparent -> list PyVal)
           (self : WriteHoldingRegister.t) : list PyVal :=
  super_extra_shape_hash_keys (WriteHoldingRegister.transparent self)
  ++ [WriteHoldingRegister.register_arg self].

(** ** More to run the model on *)

Module Fixtures.

(** A decoder that knows no PDU: [decode] returns [None]. *)
Definition none_decode (data : list byte) : outcome (option (list byte)) :=
  Return None.

(** The packet of the one-byte PDU [aa] and the packet of the two-byte PDU
    [bb cc]. *)
Definition packet_aa : list byte :=
  [x59; x59; x00; x01; x00; x03; x01; x02; xaa].

Definition packet_bbcc : list byte :=
  [x59; x59; x00; x01; x00; x04; x01; x02; xbb; xcc].

(** A response object for the register outside the write-safe list. *)
Definition device_type_response
  : @WriteHoldingRegister.t Sample.catalogue Sample.base :=
  @WriteHoldingRegister.mk Sample.catalogue Sample.base
    WriteHoldingRegister.WriteHoldingRegisterResponse
    (@VInt Sample.catalogue 0x32) (Some Sample.DEVICE_TYPE_CODE)
    (@VInt Sample.catalogue 5) None None.

(** Keywords with the register given by its number, and a value. *)
Definition kwargs_by_number : gmap string (@PyVal Sample.catalogue) :=
  <["register" := @VInt Sample.catalogue 0x1234]>
    (<["value" := @VInt Sample.catalogue 5]> ∅).

(** Function data for the register outside the list, value 5, and a check
    code of zero, after a one-byte head. *)
Definition payload_device_type : list byte :=
  [x06] ++ uint16_bytes (0x1234 + 23) ++ uint16_bytes 5 ++ uint16_bytes 0
  ++ [].

End Fixtures.

Import GivEnergyModbusFramer.

(** * Properties *)

(** ** Bytes and [struct] *)

Lemma byte_to_Z_range (b : byte) : 0 <= byte_to_Z b <= 255.
Proof.
  unfold byte_to_Z. pose proof (Byte.to_N_bounded b). lia.
Qed.

Lemma byte_to_of_Z (z : Z) : 0 <= z <= 255 -> byte_to_Z (byte_of_Z z) = z.
Proof.
  intros Hz. unfold byte_to_Z, byte_of_Z.
  destruct (Byte.of_N (Z.to_N z)) as [b|] eqn:E.
  - apply Byte.to_of_N in E. rewrite E. lia.
  - apply Byte.of_N_None_iff in E. lia.
Qed.

Lemma byte_of_to_Z (b : byte) : byte_of_Z (byte_to_Z b) = b.
Proof.
  unfold byte_to_Z, byte_of_Z. rewrite N2Z.id, Byte.of_to_N. reflexivity.
Qed.

Lemma unpack_pack_H (v : Z) :
  0 <= v <= 0xFFFF ->
  Struct.pack_H v = Return [byte_of_Z (v / 256); byte_of_Z (v mod 256)] /\
  Struct.unpack_H (byte_of_Z (v / 256)) (byte_of_Z (v mod 256)) = v.
Proof.
  intros Hv. split.
  - unfold Struct.pack_H.
    destruct (0 <=? v) eqn:E1; [|lia]. destruct (v <=? 0xFFFF) eqn:E2; [|lia].
    reflexivity.
  - unfold Struct.unpack_H.
    assert (0 <= v / 256 <= 255).
    { split; [apply Z.div_pos; lia|].
      assert (v / 256 < 256) by (apply Z.div_lt_upper_bound; lia). lia. }
    assert (0 <= v mod 256 < 256) by (apply Z.mod_pos_bound; lia).
    rewrite !byte_to_of_Z by lia.
    pose proof (Z.div_mod v 256). lia.
Qed.

Lemma pack_unpack_H (hi lo : byte) :
  Struct.pack_H (Struct.unpack_H hi lo) = Return [hi; lo].
Proof.
  pose proof (byte_to_Z_range hi). pose proof (byte_to_Z_range lo).
  unfold Struct.pack_H, Struct.unpack_H.
  destruct (0 <=? _) eqn:E1; [|lia]. destruct (_ <=? 0xFFFF) eqn:E2; [|lia].
  cbn [andb].
  replace ((256 * byte_to_Z hi + byte_to_Z lo) / 256) with (byte_to_Z hi)
    by (apply Z.div_unique with (r := byte_to_Z lo); lia).
  replace ((256 * byte_to_Z hi + byte_to_Z lo) mod 256) with (byte_to_Z lo)
    by (apply Z.mod_unique with (q := byte_to_Z hi); lia).
  rewrite !byte_of_to_Z. reflexivity.
Qed.

Lemma unpack_H_range (hi lo : byte) : 0 <= Struct.unpack_H hi lo <= 0xFFFF.
Proof.
  pose proof (byte_to_Z_range hi). pose proof (byte_to_Z_range lo).
  unfold Struct.unpack_H. lia.
Qed.

Lemma pack_HHHBB_bytes (tid pid len uid fid : Z) :
  0 <= tid <= 0xFFFF -> 0 <= pid <= 0xFFFF -> 0 <= len <= 0xFFFF ->
  0 <= uid <= 0xFF -> 0 <= fid <= 0xFF ->
  Struct.pack_HHHBB tid pid len uid fid
  = Return (header_bytes tid pid len uid fid).
Proof.
  intros Ht Hp Hl Hu Hf. unfold Struct.pack_HHHBB.
  rewrite (proj1 (unpack_pack_H tid Ht)), (proj1 (unpack_pack_H pid Hp)),
    (proj1 (unpack_pack_H len Hl)).
  unfold Struct.pack_B.
  destruct (0 <=? uid) eqn:E1; [|lia]. destruct (uid <=? 0xFF) eqn:E2; [|lia].
  destruct (0 <=? fid) eqn:E3; [|lia]. destruct (fid <=? 0xFF) eqn:E4; [|lia].
  reflexivity.
Qed.

Lemma unpack_HHHBB_bytes (tid pid len uid fid : Z) :
  0 <= tid <= 0xFFFF -> 0 <= pid <= 0xFFFF -> 0 <= len <= 0xFFFF ->
  0 <= uid <= 0xFF -> 0 <= fid <= 0xFF ->
  Struct.unpack_HHHBB (header_bytes tid pid len uid fid)
  = Return (tid, pid, len, uid, fid).
Proof.
  intros Ht Hp Hl Hu Hf. unfold Struct.unpack_HHHBB, header_bytes.
  rewrite (proj2 (unpack_pack_H tid Ht)), (proj2 (unpack_pack_H pid Hp)),
    (proj2 (unpack_pack_H len Hl)), !byte_to_of_Z by lia.
  reflexivity.
Qed.

Lemma header_bytes_length (tid pid len uid fid : Z) :
  length (header_bytes tid pid len uid fid) = 8%nat.
Proof. reflexivity. Qed.

(** ** Slices with bounds inside the sequence *)

Lemma py_slice_from_drop {A} (l : list A) (lo : Z) :
  0 <= lo -> py_slice_from l lo = drop (Z.to_nat lo) l.
Proof.
  intros Hlo. unfold py_slice_from, py_bound.
  destruct (lo <? 0) eqn:E; [lia|].
  destruct (Z.le_gt_cases lo (Z.of_nat (length l))).
  - rewrite Z.min_l by lia. reflexivity.
  - rewrite Z.min_r by lia. rewrite Nat2Z.id.
    rewrite !drop_ge by lia. reflexivity.
Qed.

Lemma py_slice_to_take {A} (l : list A) (hi : Z) :
  0 <= hi -> py_slice_to l hi = take (Z.to_nat hi) l.
Proof.
  intros Hhi. unfold py_slice_to, py_bound.
  destruct (hi <? 0) eqn:E; [lia|].
  destruct (Z.le_gt_cases hi (Z.of_nat (length l))).
  - rewrite Z.min_l by lia. reflexivity.
  - rewrite Z.min_r by lia. rewrite Nat2Z.id.
    rewrite !take_ge by lia. reflexivity.
Qed.

Lemma py_slice_take_drop {A} (l : list A) (lo hi : Z) :
  0 <= lo <= hi ->
  py_slice l lo hi = take (Z.to_nat (hi - lo)) (drop (Z.to_nat lo) l).
Proof.
  intros Hb. unfold py_slice, py_bound.
  destruct (lo <? 0) eqn:E1; [lia|]. destruct (hi <? 0) eqn:E2; [lia|].
  set (n := Z.of_nat (length l)).
  assert (Hn : length l = Z.to_nat n) by (subst n; lia).
  destruct (Z.le_gt_cases hi n); [|destruct (Z.le_gt_cases lo n)].
  - rewrite !Z.min_l by lia. reflexivity.
  - rewrite (Z.min_l lo), (Z.min_r hi) by lia.
    rewrite !take_ge; [reflexivity| |]; rewrite length_drop; lia.
  - rewrite !Z.min_r by lia. rewrite !drop_ge by lia.
    rewrite !take_nil. reflexivity.
Qed.

(** ** The header check *)

Lemma isFrameReady_eq (self : Framer) :
  isFrameReady self
  = (Return (Z.of_nat (length (_buffer self)) >=? _hsize), self).
Proof. reflexivity. Qed.

Lemma header_dict_length (tid pid len_ uid fid : Z) :
  header_dict tid pid len_ uid fid !! "length" = Some len_.
Proof.
  unfold header_dict.
  rewrite lookup_insert_ne by done. rewrite lookup_insert_ne by done.
  apply lookup_insert_eq.
Qed.

Lemma sentinel_mismatch_false (tid pid uid fid : Z) :
  sentinel_mismatch tid pid uid fid = false
  <-> tid = 0x5959 /\ pid = 0x1 /\ uid = 0x1 /\ fid = 0x2.
Proof.
  unfold sentinel_mismatch.
  rewrite !orb_false_iff, !negb_false_iff, !Z.eqb_eq. tauto.
Qed.

(** [decode_data] on a buffer of at least eight bytes, as a function of the
    header fields [struct.unpack] reads. *)
Lemma decode_data_header (data h rest : list byte) (l0 : Z)
      (tid pid len_ uid fid : Z) :
  length h = 8%nat ->
  Struct.unpack_HHHBB h = Return (tid, pid, len_, uid, fid) ->
  decode_data data {| _buffer := h ++ rest; _length := l0 |}
  = if sentinel_mismatch tid pid uid fid
    then (Raise ValueError, {| _buffer := []; _length := 0 |})
    else (Return (header_dict tid pid len_ uid fid),
          {| _buffer := h ++ rest; _length := l0 |}).
Proof.
  intros Hh Hu. unfold decode_data, bind at 1.
  rewrite isFrameReady_eq. cbn [_buffer].
  replace (Z.of_nat (length (h ++ rest)) >=? _hsize) with true
    by (symmetry; apply Z.geb_le; rewrite length_app; unfold _hsize; lia).
  unfold bind, get, lift. cbn [_buffer].
  rewrite py_slice_to_take by (unfold _hsize; lia).
  replace (Z.to_nat _hsize) with (length h) by (rewrite Hh; reflexivity).
  rewrite take_app_length, Hu.
  destruct (sentinel_mismatch tid pid uid fid); reflexivity.
Qed.

(** [checkFrame] on a buffer of at least eight bytes. *)
Lemma checkFrame_header (h rest : list byte) (l0 : Z)
      (tid pid len_ uid fid : Z) :
  length h = 8%nat ->
  Struct.unpack_HHHBB h = Return (tid, pid, len_, uid, fid) ->
  checkFrame {| _buffer := h ++ rest; _length := l0 |}
  = if sentinel_mismatch tid pid uid fid
    then (Raise ValueError, {| _buffer := []; _length := 0 |})
    else if len_ <? 2
    then (Return false,
          {| _buffer := py_slice_from (h ++ rest) (_hsize + len_ - 2);
             _length := 0 |})
    else (Return (Z.of_nat (length (h ++ rest)) >=? _hsize + len_ - 2),
          {| _buffer := h ++ rest; _length := len_ |}).
Proof.
  intros Hh Hu. unfold checkFrame, bind at 1.
  rewrite isFrameReady_eq. cbn [_buffer].
  replace (Z.of_nat (length (h ++ rest)) >=? _hsize) with true
    by (symmetry; apply Z.geb_le; rewrite length_app; unfold _hsize; lia).
  unfold bind at 1, get at 1. unfold bind at 1. cbn [_buffer].
  rewrite (decode_data_header _ h rest l0 tid pid len_ uid fid Hh Hu).
  destruct (sentinel_mismatch tid pid uid fid); [reflexivity|].
  unfold bind at 1, getitem. rewrite header_dict_length.
  unfold ret at 1, bind, get, put. cbn [_buffer _length].
  destruct (len_ <? 2); [reflexivity|].
  unfold ret. destruct (_ >=? _); reflexivity.
Qed.

(** When [checkFrame] is not called on a ready buffer it answers [False]
    and touches nothing. *)
Lemma checkFrame_not_ready (self : Framer) :
  (length (_buffer self) < 8)%nat ->
  checkFrame self = (Return false, self).
Proof.
  intros Hlen. unfold checkFrame, bind. rewrite isFrameReady_eq.
  replace (Z.of_nat (length (_buffer self)) >=? _hsize) with false;
    [reflexivity|].
  symmetry. apply not_true_is_false. rewrite Z.geb_le. unfold _hsize. lia.
Qed.

(** Every buffer of at least eight bytes splits into a header
    [struct.unpack] accepts and the rest. *)
Lemma buffer_header_split (buf : list byte) :
  (8 <= length buf)%nat ->
  exists h rest tid pid len_ uid fid,
    buf = h ++ rest /\ length h = 8%nat /\
    Struct.unpack_HHHBB h = Return (tid, pid, len_, uid, fid) /\
    0 <= len_ <= 0xFFFF.
Proof.
  intros Hlen.
  destruct buf as [|t1 [|t0 [|p1 [|p0 [|l1 [|l0 [|u [|f rest]]]]]]]];
    cbn in Hlen; try lia.
  exists [t1; t0; p1; p0; l1; l0; u; f], rest.
  do 5 eexists. do 3 (split; [reflexivity|]). apply unpack_H_range.
Qed.

(** ** One turn of the processing loop *)

Section Processing_facts.

Context {PDU : Type}.
Variable decoder_decode : list byte -> outcome (option PDU).
Variable function_code : PDU -> Z.

Abbreviation process_step := (process_step decoder_decode function_code).
Abbreviation processIncomingPacket :=
  (processIncomingPacket decoder_decode function_code).
Abbreviation feed_chunks := (feed_chunks decoder_decode function_code).

Lemma process_step_not_ready (w : @Run PDU) :
  (length (_buffer (framer w)) < 8)%nat ->
  process_step w = (Return false, w).
Proof.
  intros Hlen. destruct w as [f cs].
  unfold GivEnergyModbusFramer.process_step, bind, on_framer.
  cbn [framer callback_calls] in *.
  rewrite isFrameReady_eq.
  replace (Z.of_nat (length (_buffer f)) >=? _hsize) with false;
    [reflexivity|].
  symmetry. apply not_true_is_false. rewrite Z.geb_le. unfold _hsize. lia.
Qed.

Lemma process_step_header (h rest : list byte) (l0 : Z) (cs : list PDU)
      (tid pid len_ uid fid : Z) :
  length h = 8%nat ->
  Struct.unpack_HHHBB h = Return (tid, pid, len_, uid, fid) ->
  process_step {| framer := {| _buffer := h ++ rest; _length := l0 |};
                  callback_calls := cs |}
  = if sentinel_mismatch tid pid uid fid
    then (Raise ValueError, reset_run cs)
    else if len_ <? 2 then (Return true, reset_run cs)
    else if Z.of_nat (length (h ++ rest)) >=? _hsize + len_ - 2
    then match decoder_decode
                 (py_slice (h ++ rest) _hsize (_hsize + len_ - 2)) with
         | Return (Some m) =>
             (Return true,
              {| framer :=
                   {| _buffer := py_slice_from (h ++ rest) (_hsize + len_ - 2);
                      _length := 0 |};
                 callback_calls := cs ++ [m] |})
         | Return None =>
             (Raise ModbusIOException,
              {| framer := {| _buffer := h ++ rest; _length := len_ |};
                 callback_calls := cs |})
         | Raise e =>
             (Raise e,
              {| framer := {| _buffer := h ++ rest; _length := len_ |};
                 callback_calls := cs |})
         end
    else (Return true, reset_run cs).
Proof.
  intros Hh Hu.
  unfold GivEnergyModbusFramer.process_step, bind at 1, on_framer at 1.
  cbn [framer callback_calls]. rewrite isFrameReady_eq. cbn [_buffer].
  replace (Z.of_nat (length (h ++ rest)) >=? _hsize) with true
    by (symmetry; apply Z.geb_le; rewrite length_app; unfold _hsize; lia).
  cbn [negb]. unfold bind at 1, on_framer at 1. cbn [framer callback_calls].
  rewrite (checkFrame_header h rest l0 tid pid len_ uid fid Hh Hu).
  destruct (sentinel_mismatch tid pid uid fid); [reflexivity|].
  destruct (len_ <? 2); [reflexivity|].
  destruct (Z.of_nat (length (h ++ rest)) >=? _hsize + len_ - 2);
    [|reflexivity].
  cbn [negb]. unfold _process.
  cbv [bind on_framer getFrame get ret lift raise populateResult advanceFrame
       callback put framer callback_calls _buffer _length].
  destruct (decoder_decode _) as [[m|]|e]; reflexivity.
Qed.

(** *** The loop terminates *)

Lemma process_step_shortens (w w' : @Run PDU) :
  process_step w = (Return true, w') ->
  (length (_buffer (framer w')) < length (_buffer (framer w)))%nat.
Proof.
  destruct w as [[buf l0] cs]. cbn [framer _buffer].
  destruct (Nat.lt_ge_cases (length buf) 8) as [Hshort|Hready].
  { rewrite process_step_not_ready by exact Hshort. discriminate. }
  destruct (buffer_header_split buf Hready)
    as (h & rest & tid & pid & len_ & uid & fid & -> & Hh & Hu & Hlen).
  rewrite (process_step_header h rest l0 cs tid pid len_ uid fid Hh Hu).
  assert (Hpos : (0 < length (h ++ rest))%nat) by (rewrite length_app; lia).
  destruct (sentinel_mismatch tid pid uid fid); [discriminate|].
  destruct (len_ <? 2) eqn:Elen.
  { intros [= <-]. exact Hpos. }
  destruct (Z.of_nat (length (h ++ rest)) >=? _hsize + len_ - 2) eqn:Efull.
  2: { intros [= <-]. exact Hpos. }
  destruct (decoder_decode _) as [[m|]|e]; try discriminate.
  intros [= <-]. cbn [framer _buffer].
  apply Z.ltb_ge in Elen. unfold _hsize in *.
  rewrite py_slice_from_drop by lia. rewrite length_drop. lia.
Qed.

Lemma while_true_returns {St} (measure : St -> nat) (body : M St bool) :
  (forall s s', body s = (Return true, s') -> (measure s' < measure s)%nat) ->
  forall fuel s, (measure s < fuel)%nat -> is_Some (while_true fuel body s).
Proof.
  intros Hdec fuel. induction fuel as [|fuel IH]; intros s Hs; [lia|].
  cbn [while_true]. destruct (body s) as [[[|]|e] s'] eqn:E; eauto.
  apply IH. apply Hdec in E. lia.
Qed.

(** [processIncomingPacket] always comes back: the fuel it is given is
    never used up. *)
Lemma processIncomingPacket_returns (data : list byte) (w : @Run PDU) :
  is_Some (processIncomingPacket data w).
Proof.
  unfold GivEnergyModbusFramer.processIncomingPacket,
    processIncomingPacket_fuel.
  cbv [on_framer addToFrame bind get put].
  apply (while_true_returns (fun w => length (_buffer (framer w)))).
  - apply process_step_shortens.
  - cbn [framer _buffer]. lia.
Qed.

(** More fuel does not change an answer. *)
Lemma while_true_more_fuel {St} (body : M St bool) (fuel fuel' : nat) s r :
  while_true fuel body s = Some r -> (fuel <= fuel')%nat ->
  while_true fuel' body s = Some r.
Proof.
  revert fuel' s. induction fuel as [|fuel IH]; intros fuel' s; [discriminate|].
  destruct fuel' as [|fuel']; [lia|]. cbn [while_true].
  destruct (body s) as [[[|]|e] s']; auto. intros H Hle. apply IH; [exact H|lia].
Qed.

(** *** Packets built by [buildPacket] *)

Lemma buildPacket_frame (pdu frame : list byte) :
  buildPacket (Return pdu) = Return frame ->
  Z.of_nat (length pdu) + 2 <= 0xFFFF /\
  frame = header_bytes 0x5959 0x0001 (Z.of_nat (length pdu) + 2) 0x01 0x02
          ++ pdu.
Proof.
  unfold buildPacket, frame_head.
  destruct (Z.le_gt_cases (Z.of_nat (length pdu) + 2) 0xFFFF) as [Hle|Hgt].
  - rewrite pack_HHHBB_bytes by lia. intros [= <-]. auto.
  - unfold Struct.pack_HHHBB. cbn [Struct.pack_H Z.leb andb].
    unfold Struct.pack_H at 3.
    destruct (_ <=? 0xFFFF) eqn:E; [lia|].
    rewrite andb_false_r. cbn. discriminate.
Qed.

Lemma buildPacket_ok (pdu : list byte) :
  Z.of_nat (length pdu) + 2 <= 0xFFFF ->
  buildPacket (Return pdu)
  = Return (header_bytes 0x5959 0x0001 (Z.of_nat (length pdu) + 2) 0x01 0x02
            ++ pdu).
Proof.
  intros Hle. unfold buildPacket, frame_head.
  rewrite pack_HHHBB_bytes by lia. reflexivity.
Qed.

(** A complete frame at the head of the buffer is decoded, popped and
    handed to the callback. *)
Lemma process_step_frame (pdu frame rest : list byte) (l0 : Z)
      (cs : list PDU) (m : PDU) :
  buildPacket (Return pdu) = Return frame ->
  decoder_decode pdu = Return (Some m) ->
  process_step {| framer := {| _buffer := frame ++ rest; _length := l0 |};
                  callback_calls := cs |}
  = (Return true,
     {| framer := {| _buffer := rest; _length := 0 |};
        callback_calls := cs ++ [m] |}).
Proof.
  intros Hb Hd. apply buildPacket_frame in Hb as [Hle ->].
  set (n := Z.of_nat (length pdu)) in *.
  set (h := header_bytes _ _ _ _ _).
  rewrite <- app_assoc.
  rewrite (process_step_header h (pdu ++ rest) l0 cs 0x5959 1 (n + 2) 1 2)
    by (try reflexivity; apply unpack_HHHBB_bytes; lia).
  cbn [sentinel_mismatch Z.eqb Pos.eqb negb orb].
  destruct (n + 2 <? 2) eqn:E1; [lia|].
  assert (Hlen : Z.of_nat (length (h ++ pdu ++ rest))
                 = 8 + n + Z.of_nat (length rest)).
  { rewrite !length_app. subst h n. rewrite header_bytes_length. lia. }
  destruct (_ >=? _) eqn:E2.
  2: { apply not_true_iff_false in E2. rewrite Z.geb_le in E2.
       unfold _hsize in E2. lia. }
  unfold _hsize.
  rewrite py_slice_take_drop, py_slice_from_drop by lia.
  replace (Z.to_nat 8) with (length h) by reflexivity.
  rewrite drop_app_length.
  replace (Z.to_nat (8 + (n + 2) - 2 - 8)) with (length pdu) by lia.
  rewrite take_app_length, Hd.
  replace (Z.to_nat (8 + (n + 2) - 2)) with (length h + length pdu)%nat
    by (subst h n; rewrite header_bytes_length; lia).
  rewrite <- drop_drop, drop_app_length, drop_app_length. reflexivity.
Qed.

End Processing_facts.

(** ** The check code: [CrcModbus] is the Modbus CRC-16 *)

Ltac zbool :=
  repeat match goal with
    | H : (_ <? _) = true |- _ => apply Z.ltb_lt in H
    | H : (_ <? _) = false |- _ => apply Z.ltb_ge in H
    | H : (_ <=? _) = true |- _ => apply Z.leb_le in H
    | H : (_ <=? _) = false |- _ => apply Z.leb_gt in H
    end.

Lemma reflectbitorder_testbit (w : nat) (v j : Z) :
  0 <= j ->
  Z.testbit (CrcModbus.reflectbitorder w v) j
  = (j <? Z.of_nat w) && Z.testbit v (Z.of_nat w - 1 - j).
Proof.
  revert v j. induction w as [|w IH]; intros v j Hj.
  - cbn [CrcModbus.reflectbitorder]. rewrite Z.bits_0.
    destruct (j <? Z.of_nat 0) eqn:E; [zbool; lia|reflexivity].
  - cbn [CrcModbus.reflectbitorder].
    rewrite Z.lor_spec, Z.shiftl_spec, IH by lia.
    destruct (Z.lt_trichotomy j (Z.of_nat w)) as [Hlt|[Heq|Hgt]].
    + rewrite Z.testbit_neg_r by lia. rewrite Z.shiftr_spec by lia.
      destruct (j <? Z.of_nat w) eqn:E1; [|zbool; lia].
      destruct (j <? Z.of_nat (S w)) eqn:E2; [|zbool; lia].
      cbn [orb andb]. f_equal. lia.
    + subst j. replace (Z.of_nat w - Z.of_nat w) with 0 by lia.
      rewrite Z.land_spec.
      destruct (Z.of_nat w <? Z.of_nat w) eqn:E1; [zbool; lia|].
      destruct (Z.of_nat w <? Z.of_nat (S w)) eqn:E2; [|zbool; lia].
      cbn [andb]. rewrite orb_false_r.
      replace (Z.of_nat (S w) - 1 - Z.of_nat w) with 0 by lia.
      change (Z.testbit 1 0) with true. apply andb_true_r.
    + rewrite Z.land_spec.
      replace (Z.testbit 1 (j - Z.of_nat w)) with false.
      2:{ symmetry. apply (Z.bits_above_log2 1); cbn; lia. }
      destruct (j <? Z.of_nat w) eqn:E1; [zbool; lia|].
      destruct (j <? Z.of_nat (S w)) eqn:E2; [zbool; lia|].
      rewrite andb_false_r. reflexivity.
Qed.

Lemma reflectbitorder_range (w : nat) (v : Z) :
  0 <= CrcModbus.reflectbitorder w v < 2 ^ Z.of_nat w.
Proof.
  assert (H : CrcModbus.reflectbitorder w v
              = CrcModbus.reflectbitorder w v mod 2 ^ Z.of_nat w).
  { apply Z.bits_inj'. intros n Hn.
    destruct (Z.lt_ge_cases n (Z.of_nat w)).
    - rewrite Z.mod_pow2_bits_low by lia. reflexivity.
    - rewrite Z.mod_pow2_bits_high by lia.
      rewrite reflectbitorder_testbit by lia.
      destruct (n <? Z.of_nat w) eqn:E; [zbool; lia|reflexivity]. }
  rewrite H. apply Z.mod_pos_bound. apply Z.pow_pos_nonneg; lia.
Qed.

Lemma Z_upto_In (n : nat) (z c : Z) :
  z <= c < z + Z.of_nat n -> In c (Z_upto n z).
Proof.
  revert z. induction n as [|n IH]; intros z Hc; [lia|].
  cbn [Z_upto]. destruct (Z.eq_dec z c) as [->|Hne]; [left; reflexivity|].
  right. apply IH. lia.
Qed.

Lemma crc_turn_agrees_all :
  forallb crc_turn_agrees (Z_upto (Z.to_nat 65536) 0) = true.
Proof. vm_compute. reflexivity. Qed.

Lemma crc_turn (c : Z) :
  0 <= c < 65536 ->
  CrcModbus.reflectbitorder 16 (Z.land (Nat.iter 8 CrcModbus.shift_one c) 0xFFFF)
  = Nat.iter 8 crc16_modbus_shift (CrcModbus.reflectbitorder 16 c).
Proof.
  intros Hc.
  pose proof (proj1 (forallb_forall _ _) crc_turn_agrees_all c) as H.
  unfold crc_turn_agrees in H. apply Z.eqb_eq, H, Z_upto_In.
  rewrite Z2Nat.id; lia.
Qed.

Lemma testbit_above (b n : Z) (k : Z) :
  0 <= b < 2 ^ k -> 0 <= k <= n -> Z.testbit b n = false.
Proof.
  intros Hb Hn. 
  rewrite <- (Z.mod_small b (2 ^ k)) by lia.
  apply Z.mod_pow2_bits_high. lia.
Qed.

Lemma reflect_xor_byte (c b : Z) :
  0 <= b < 256 ->
  CrcModbus.reflectbitorder 16
    (Z.lxor c (Z.shiftl (CrcModbus.reflectbitorder 8 b) 8))
  = Z.lxor (CrcModbus.reflectbitorder 16 c) b.
Proof.
  intros Hb. apply Z.bits_inj'. intros n Hn.
  rewrite Z.lxor_spec, !reflectbitorder_testbit by lia.
  change (Z.of_nat 16) with 16.
  destruct (n <? 16) eqn:E; zbool.
  - cbn [andb]. rewrite Z.lxor_spec. f_equal.
    rewrite Z.shiftl_spec by lia.
    destruct (Z.lt_ge_cases n 8).
    + rewrite reflectbitorder_testbit by lia. change (Z.of_nat 8) with 8.
      destruct (_ <? 8) eqn:E2; zbool; [|lia].
      cbn [andb]. f_equal. lia.
    + rewrite Z.testbit_neg_r by lia. symmetry.
      apply (testbit_above b n 8); lia.
  - cbn [andb]. symmetry. rewrite (testbit_above b n 8) by lia. reflexivity.
Qed.

Lemma process_byte_eq (c : Z) (b : byte) :
  CrcModbus.process_byte c b
  = Z.land (Nat.iter 8 CrcModbus.shift_one
              (Z.lxor c (Z.shiftl (CrcModbus.reflectbitorder 8 (byte_to_Z b)) 8)))
           0xFFFF.
Proof.
  unfold CrcModbus.process_byte. cbv zeta.
  change CrcModbus.mask with 0xFFFF. change CrcModbus.shift with 8.
  reflexivity.
Qed.

Lemma lxor_range16 (a b : Z) :
  0 <= a < 65536 -> 0 <= b < 65536 -> 0 <= Z.lxor a b < 65536.
Proof.
  intros Ha Hb. split.
  - apply Z.lxor_nonneg. lia.
  - assert (H : Z.lxor a b = Z.lxor a b mod 2 ^ 16).
    { apply Z.bits_inj'. intros n Hn.
      destruct (Z.lt_ge_cases n 16).
      - rewrite Z.mod_pow2_bits_low by lia. reflexivity.
      - rewrite Z.mod_pow2_bits_high by lia. rewrite Z.lxor_spec.
        rewrite (testbit_above a n 16), (testbit_above b n 16) by lia.
        reflexivity. }
    rewrite H. apply Z.mod_pos_bound. lia.
Qed.

Lemma process_byte_range (c : Z) (b : byte) :
  0 <= CrcModbus.process_byte c b < 65536.
Proof.
  rewrite process_byte_eq. change 0xFFFF with (Z.ones 16).
  rewrite Z.land_ones by lia. apply Z.mod_pos_bound. lia.
Qed.

Lemma process_byte_reflect (c : Z) (b : byte) :
  0 <= c < 65536 ->
  CrcModbus.reflectbitorder 16 (CrcModbus.process_byte c b)
  = crc16_modbus_byte (CrcModbus.reflectbitorder 16 c) b.
Proof.
  intros Hc. rewrite process_byte_eq. unfold crc16_modbus_byte.
  pose proof (byte_to_Z_range b) as Hb.
  rewrite <- reflect_xor_byte by lia. apply crc_turn.
  apply lxor_range16; [lia|].
  pose proof (reflectbitorder_range 8 (byte_to_Z b)) as Hr.
  rewrite Z.shiftl_mul_pow2 by lia.
  replace (2 ^ Z.of_nat 8) with 256 in Hr by reflexivity.
  replace (2 ^ 8) with 256 by reflexivity. lia.
Qed.

Lemma fold_left_nil {A B} (f : A -> B -> A) (a : A) : fold_left f [] a = a.
Proof. reflexivity. Qed.

Lemma fold_left_cons {A B} (f : A -> B -> A) (b : B) (l : list B) (a : A) :
  fold_left f (b :: l) a = fold_left f l (f a b).
Proof. reflexivity. Qed.

Lemma process_fold (data : list byte) (c : Z) :
  0 <= c < 65536 ->
  CrcModbus.reflectbitorder 16 (fold_left CrcModbus.process_byte data c)
  = fold_left crc16_modbus_byte data (CrcModbus.reflectbitorder 16 c).
Proof.
  revert c. induction data as [|b data IH]; intros c Hc.
  - rewrite !fold_left_nil. reflexivity.
  - rewrite !fold_left_cons. rewrite IH by apply process_byte_range.
    rewrite process_byte_reflect by exact Hc. reflexivity.
Qed.

Lemma CrcModbus_is_crc16_modbus (data : list byte) :
  CrcModbus.calc data = crc16_modbus data.
Proof.
  unfold CrcModbus.calc, CrcModbus.final, CrcModbus.process, crc16_modbus.
  cbn [CrcModbus._reflect_output CrcModbus._xor_output].
  rewrite Z.lxor_0_r. unfold CrcModbus._width.
  rewrite process_fold by (unfold CrcModbus._initvalue; lia). reflexivity.
Qed.

Lemma CrcModbus_range (data : list byte) : 0 <= CrcModbus.calc data <= 0xFFFF.
Proof.
  unfold CrcModbus.calc, CrcModbus.final.
  cbn [CrcModbus._reflect_output CrcModbus._xor_output].
  rewrite Z.lxor_0_r.
  pose proof (reflectbitorder_range CrcModbus._width (CrcModbus.process data)) as H.
  change (2 ^ Z.of_nat CrcModbus._width) with 65536 in H. lia.
Qed.

(** ** The sample catalogue is an [Enum] *)

Lemma Sample_enum_laws : @EnumLaws Sample.catalogue.
Proof.
  split.
  - intros v r. split.
    + intros Hf. apply find_some in Hf as [_ Hv]. apply Z.eqb_eq, Hv.
    + intros <-. destruct r; reflexivity.
  - intros s r. split.
    + intros Hf. apply find_some in Hf as [_ Hv]. apply String.eqb_eq, Hv.
    + intros <-. destruct r; reflexivity.
Qed.

(** * The framer *)

(** Every eight bytes are the layout of the fields [struct.unpack] reads
    from them, so that a statement about [header_bytes] covers every
    header. *)
Lemma unpack_HHHBB_inv (h : list byte) (tid pid len_ uid fid : Z) :
  Struct.unpack_HHHBB h = Return (tid, pid, len_, uid, fid) ->
  h = header_bytes tid pid len_ uid fid /\
  0 <= tid <= 0xFFFF /\ 0 <= pid <= 0xFFFF /\ 0 <= len_ <= 0xFFFF /\
  0 <= uid <= 0xFF /\ 0 <= fid <= 0xFF.
Proof.
  destruct h as [|t1 [|t0 [|p1 [|p0 [|l1 [|l0 [|u [|f [|x h]]]]]]]]];
    try discriminate.
  cbn [Struct.unpack_HHHBB]. intros [= <- <- <- <- <-].
  pose proof (pack_unpack_H t1 t0) as Ht. pose proof (pack_unpack_H p1 p0) as Hp.
  pose proof (pack_unpack_H l1 l0) as Hl.
  pose proof (unpack_H_range t1 t0) as Rt.
  pose proof (unpack_H_range p1 p0) as Rp.
  pose proof (unpack_H_range l1 l0) as Rl.
  rewrite (proj1 (unpack_pack_H _ Rt)) in Ht.
  rewrite (proj1 (unpack_pack_H _ Rp)) in Hp.
  rewrite (proj1 (unpack_pack_H _ Rl)) in Hl.
  injection Ht as Ht1 Ht0. injection Hp as Hp1 Hp0. injection Hl as Hl1 Hl0.
  unfold header_bytes. rewrite Ht1, Ht0, Hp1, Hp0, Hl1, Hl0, !byte_of_to_Z.
  pose proof (byte_to_Z_range u). pose proof (byte_to_Z_range f).
  repeat split; lia.
Qed.

(** C7.  A header with transaction id 0x5959, protocol id 0x0001, unit id
    0x01 and function code 0x02 makes [decode_data] return the header with
    the declared length as it stands on the wire, and leaves the framer as it
    was; when any of the four differs, [decode_data] raises [ValueError] and
    the whole buffer is cleared. *)
Theorem decode_data_checks_sentinels
        (tid pid len uid fid l0 : Z) (data rest : list byte) :
  0 <= tid <= 0xFFFF -> 0 <= pid <= 0xFFFF -> 0 <= len <= 0xFFFF ->
  0 <= uid <= 0xFF -> 0 <= fid <= 0xFF ->
  let self := {| _buffer := header_bytes tid pid len uid fid ++ rest;
                 _length := l0 |} in
  (tid = 0x5959 /\ pid = 0x0001 /\ uid = 0x01 /\ fid = 0x02 ->
   exists header,
     decode_data data self = (Return header, self) /\
     header !! "length" = Some len)
  /\
  (tid <> 0x5959 \/ pid <> 0x0001 \/ uid <> 0x01 \/ fid <> 0x02 ->
   decode_data data self
   = (Raise ValueError, {| _buffer := []; _length := 0 |})).
Proof.
  intros Ht Hp Hl Hu Hf self. subst self.
  rewrite (decode_data_header data _ rest l0 tid pid len uid fid
             (header_bytes_length _ _ _ _ _)
             (unpack_HHHBB_bytes _ _ _ _ _ Ht Hp Hl Hu Hf)).
  split.
  - intros Hs. apply sentinel_mismatch_false in Hs. rewrite Hs.
    eexists. split; [reflexivity|]. apply header_dict_length.
  - intros Hs. destruct (sentinel_mismatch tid pid uid fid) eqn:E;
      [reflexivity|].
    apply sentinel_mismatch_false in E. lia.
Qed.

Lemma decode_data_checks_sentinels_witness :
  (exists header,
      decode_data []
        {| _buffer := header_bytes 0x5959 1 8 1 2 ++ [x0a; x0b]; _length := 0 |}
      = (Return header,
         {| _buffer := header_bytes 0x5959 1 8 1 2 ++ [x0a; x0b];
            _length := 0 |}) /\
      header !! "length" = Some 8)
  /\ decode_data []
       {| _buffer := header_bytes 0x5959 1 8 1 3 ++ [x0a; x0b]; _length := 0 |}
     = (Raise ValueError, {| _buffer := []; _length := 0 |}).
Proof.
  split.
  - apply (decode_data_checks_sentinels 0x5959 1 8 1 2 0 [] [x0a; x0b]);
      lia.
  - apply (decode_data_checks_sentinels 0x5959 1 8 1 3 0 [] [x0a; x0b]);
      lia.
Defined.

(** C8, as the code has it.  On a header with the four sentinels and a
    declared length below 2, [checkFrame] returns [False] without raising and
    pops [_hsize + length - 2] bytes: six when the length is 0, seven when it
    is 1.  The last two bytes of the header, or the last one, stay at the
    head of the buffer, before the bytes that followed the header. *)
Theorem checkFrame_short_length (len l0 : Z) (rest : list byte) :
  0 <= len < 2 ->
  checkFrame {| _buffer := header_bytes 0x5959 1 len 1 2 ++ rest;
                _length := l0 |}
  = (Return false,
     {| _buffer := (if len =? 0 then [x01; x02] else [x02]) ++ rest;
        _length := 0 |}).
Proof.
  intros Hlen.
  rewrite (checkFrame_header _ rest l0 0x5959 1 len 1 2
             (header_bytes_length _ _ _ _ _))
    by (apply unpack_HHHBB_bytes; lia).
  cbn [sentinel_mismatch Z.eqb Pos.eqb negb orb].
  destruct (len <? 2) eqn:E; [|zbool; lia].
  unfold _hsize. rewrite py_slice_from_drop by lia.
  assert (Hcases : len = 0 \/ len = 1) by lia.
  destruct Hcases as [-> | ->]; reflexivity.
Qed.

Lemma checkFrame_short_length_witness :
  checkFrame {| _buffer := header_bytes 0x5959 1 0 1 2 ++ [xaa]; _length := 0 |}
  = (Return false, {| _buffer := [x01; x02; xaa]; _length := 0 |}).
Proof.
  apply (checkFrame_short_length 0 0 [xaa]). lia.
Defined.

(** C8 as the specification words it fails: the buffer [checkFrame] leaves
    is not what followed the eight header bytes. *)
Lemma checkFrame_short_length_keeps_header_tail :
  let self := {| _buffer := [x59; x59; x00; x01; x00; x00; x01; x02; xaa];
                 _length := 0 |} in
  fst (checkFrame self) = Return false /\
  _buffer (snd (checkFrame self)) = [x01; x02; xaa] /\
  _buffer (snd (checkFrame self)) <> drop 8 (_buffer self).
Proof.
  cbv zeta. split; [reflexivity|]. split; [reflexivity|].
  vm_compute. discriminate.
Qed.

Section Stream.

Context {PDU : Type}.
Variable decoder_decode : list byte -> outcome (option PDU).
Variable function_code : PDU -> Z.

Abbreviation process_step := (process_step decoder_decode function_code).
Abbreviation processIncomingPacket :=
  (processIncomingPacket decoder_decode function_code).

(** The loop on a buffer whose head is a complete frame: the frame is
    delivered and the loop goes on with what follows it. *)
Lemma while_true_frame (fuel : nat) (pdu frame rest : list byte) (l0 : Z)
      (cs : list PDU) (m : PDU) :
  buildPacket (Return pdu) = Return frame ->
  decoder_decode pdu = Return (Some m) ->
  while_true (S fuel) process_step
    {| framer := {| _buffer := frame ++ rest; _length := l0 |};
       callback_calls := cs |}
  = while_true fuel process_step
      {| framer := {| _buffer := rest; _length := 0 |};
         callback_calls := cs ++ [m] |}.
Proof.
  intros Hb Hd. cbn [while_true].
  rewrite (process_step_frame _ _ pdu frame rest l0 cs m Hb Hd). reflexivity.
Qed.

(** The loop on a buffer too short for a header: it stops there. *)
Lemma while_true_not_ready (fuel : nat) (w : @Run PDU) :
  (length (_buffer (framer w)) < 8)%nat ->
  while_true (S fuel) process_step w = Some (Return tt, w).
Proof.
  intros Hlen. cbn [while_true].
  rewrite process_step_not_ready by exact Hlen. reflexivity.
Qed.

Lemma processIncomingPacket_eq (data : list byte) (f : Framer)
      (cs : list PDU) :
  processIncomingPacket data {| framer := f; callback_calls := cs |}
  = while_true (S (length (_buffer f ++ data))) process_step
      {| framer := {| _buffer := _buffer f ++ data; _length := _length f |};
         callback_calls := cs |}.
Proof. reflexivity. Qed.

(** C9.  One call on a chunk that is two packets built by [buildPacket],
    one after the other, calls the callback twice, with the PDU decoded from
    the first and then with the PDU decoded from the second, and leaves the
    buffer empty. *)
Theorem two_frames_in_one_chunk
        (pdu1 pdu2 frame1 frame2 : list byte) (m1 m2 : PDU) :
  buildPacket (Return pdu1) = Return frame1 ->
  buildPacket (Return pdu2) = Return frame2 ->
  decoder_decode pdu1 = Return (Some m1) ->
  decoder_decode pdu2 = Return (Some m2) ->
  processIncomingPacket (frame1 ++ frame2) Run_init
  = Some (Return tt,
          {| framer := {| _buffer := []; _length := 0 |};
             callback_calls := [m1; m2] |}).
Proof.
  intros Hb1 Hb2 Hd1 Hd2. unfold Run_init, Framer_init.
  rewrite processIncomingPacket_eq. cbn [_buffer _length app].
  pose proof (buildPacket_frame _ _ Hb1) as [_ Hf1].
  assert (Hlen : exists n, length (frame1 ++ frame2) = S (S n)).
  { rewrite Hf1, !length_app, header_bytes_length.
    exists (6 + length pdu1 + length frame2)%nat. lia. }
  destruct Hlen as [n ->].
  rewrite (while_true_frame _ pdu1 frame1 frame2 0 [] m1 Hb1 Hd1).
  rewrite <- (app_nil_r frame2).
  rewrite (while_true_frame _ pdu2 frame2 [] 0 _ m2 Hb2 Hd2).
  rewrite while_true_not_ready by (cbn; lia). reflexivity.
Qed.

(** C3, as the code has it.  When the buffer, with the new bytes added,
    starts with a header one of whose sentinels is wrong,
    [processIncomingPacket] clears the whole buffer and raises [ValueError]
    to its caller, having called the callback for nothing.  The framer it
    leaves is the one [__init__] builds, and the next call on it delivers a
    well-formed packet. *)
Theorem processIncomingPacket_corrupt_header
        (w : @Run PDU) (data h rest : list byte) (tid pid len_ uid fid : Z) :
  _buffer (framer w) ++ data = h ++ rest ->
  length h = 8%nat ->
  Struct.unpack_HHHBB h = Return (tid, pid, len_, uid, fid) ->
  sentinel_mismatch tid pid uid fid = true ->
  processIncomingPacket data w
  = Some (Raise ValueError, reset_run (callback_calls w))
  /\ framer (reset_run (callback_calls w)) = Framer_init
  /\ forall pdu frame m,
      buildPacket (Return pdu) = Return frame ->
      decoder_decode pdu = Return (Some m) ->
      processIncomingPacket frame (reset_run (callback_calls w))
      = Some (Return tt, reset_run (callback_calls w ++ [m])).
Proof.
  intros Hbuf Hh Hu Hs. destruct w as [f cs]. cbn [framer callback_calls] in *.
  split; [|split; [reflexivity|]].
  - rewrite processIncomingPacket_eq, Hbuf. cbn [while_true].
    rewrite (process_step_header _ _ h rest _ cs tid pid len_ uid fid Hh Hu).
    rewrite Hs. reflexivity.
  - intros pdu frame m Hb Hd. unfold reset_run.
    rewrite processIncomingPacket_eq. cbn [_buffer _length app].
    pose proof (buildPacket_frame _ _ Hb) as [_ Hf].
    assert (Hlen : exists n, length frame = S n).
    { rewrite Hf, length_app, header_bytes_length. eexists. reflexivity. }
    destruct Hlen as [n ->].
    rewrite <- (app_nil_r frame).
    rewrite (while_true_frame _ pdu frame [] 0 cs m Hb Hd).
    rewrite while_true_not_ready by (cbn; lia). reflexivity.
Qed.

(** The defect behind C2: a header whose frame is not complete yet makes
    [checkFrame] answer [False], and [processIncomingPacket] then resets the
    framer, so that the part of the frame received so far is lost. *)
Lemma processIncomingPacket_drops_partial_frame
      (w : @Run PDU) (data rest : list byte) (len : Z) :
  2 <= len <= 0xFFFF ->
  _buffer (framer w) ++ data = header_bytes 0x5959 1 len 1 2 ++ rest ->
  Z.of_nat (length rest) < len - 2 ->
  processIncomingPacket data w
  = Some (Return tt, reset_run (callback_calls w)).
Proof.
  intros Hlen Hbuf Hshort. destruct w as [f cs]. cbn [framer callback_calls] in *.
  rewrite processIncomingPacket_eq, Hbuf.
  rewrite length_app, header_bytes_length. cbn [while_true Nat.add].
  rewrite (process_step_header _ _ _ rest _ cs 0x5959 1 len 1 2
             (header_bytes_length _ _ _ _ _))
    by (apply unpack_HHHBB_bytes; lia).
  cbn [sentinel_mismatch Z.eqb Pos.eqb negb orb].
  destruct (len <? 2) eqn:E1; [zbool; lia|].
  destruct (_ >=? _) eqn:E2.
  { apply Z.geb_le in E2. rewrite length_app, header_bytes_length in E2.
    unfold _hsize in E2. lia. }
  rewrite process_step_not_ready by (cbn; lia). reflexivity.
Qed.

End Stream.

Lemma two_frames_in_one_chunk_witness :
  processIncomingPacket Sample.raw_decode Sample.raw_function_code
    ([x59; x59; x00; x01; x00; x03; x01; x02; xaa]
     ++ [x59; x59; x00; x01; x00; x04; x01; x02; xbb; xcc])
    Run_init
  = Some (Return tt,
          {| framer := {| _buffer := []; _length := 0 |};
             callback_calls := [[xaa]; [xbb; xcc]] |}).
Proof.
  apply (two_frames_in_one_chunk Sample.raw_decode Sample.raw_function_code
           [xaa] [xbb; xcc] _ _ [xaa] [xbb; xcc]); reflexivity.
Defined.

Lemma processIncomingPacket_corrupt_header_witness :
  processIncomingPacket Sample.raw_decode Sample.raw_function_code
    [x59; x58; x00; x01; x00; x03; x01; x02; xaa] Run_init
  = Some (Raise ValueError, reset_run []).
Proof.
  apply (processIncomingPacket_corrupt_header
           Sample.raw_decode Sample.raw_function_code Run_init
           [x59; x58; x00; x01; x00; x03; x01; x02; xaa]
           [x59; x58; x00; x01; x00; x03; x01; x02] [xaa]
           0x5958 1 3 1 2); reflexivity.
Defined.

(** C3 as the specification words it fails: on a chunk whose header has the
    transaction id 0x5958, [processIncomingPacket] does not return, it
    raises. *)
Lemma processIncomingPacket_raises_on_corrupt_header :
  processIncomingPacket Sample.raw_decode Sample.raw_function_code
    [x59; x58; x00; x01; x00; x03; x01; x02; xaa] Run_init
  = Some (Raise ValueError, reset_run [])
  /\ ~ (exists w',
          processIncomingPacket Sample.raw_decode Sample.raw_function_code
            [x59; x58; x00; x01; x00; x03; x01; x02; xaa] Run_init
          = Some (Return tt, w')).
Proof.
  split; [vm_compute; reflexivity|].
  intros [w' Hw]. vm_compute in Hw. discriminate.
Qed.

(** C2 fails on the code.  The packet for the one-byte PDU [aa] is decoded
    when it arrives whole.  Delivered header first and PDU next, or one byte
    at a time, the header alone makes a frame that is not complete,
    [processIncomingPacket] resets the framer, and the PDU byte that arrives
    later is left in the buffer: no message is ever delivered. *)
Theorem rechunking_loses_the_frame :
  let frame := [x59; x59; x00; x01; x00; x03; x01; x02; xaa] in
  let run := feed_chunks Sample.raw_decode Sample.raw_function_code in
  run [frame] Run_init
  = Some (Return tt,
          {| framer := {| _buffer := []; _length := 0 |};
             callback_calls := [[xaa]] |})
  /\ run [take 8 frame; drop 8 frame] Run_init
     = Some (Return tt,
             {| framer := {| _buffer := [xaa]; _length := 0 |};
                callback_calls := [] |})
  /\ run (map (fun b => [b]) frame) Run_init
     = Some (Return tt,
             {| framer := {| _buffer := [xaa]; _length := 0 |};
                callback_calls := [] |}).
Proof.
  cbv zeta. repeat split; vm_compute; reflexivity.
Qed.

(** * The write-register codec *)

Import WriteHoldingRegister.

Section Codec_facts.

Context `{TransparentBase}.

(** The chained comparison [0 > v > 0xFFFF] holds for no integer. *)
Lemma chained_comparison_never (v : Z) : (0 >? v) && (v >? 0xFFFF) = false.
Proof.
  destruct (0 >? v) eqn:E1; [|reflexivity].
  destruct (v >? 0xFFFF) eqn:E2; [|reflexivity].
  apply Z.gtb_lt in E1. apply Z.gtb_lt in E2. lia.
Qed.

Lemma base_ensure_valid_state_int (self : t) (r : HoldingRegister) (v : Z) :
  transparent_ensure_valid_state (transparent self) = Return tt ->
  register self = Some r ->
  value self = VInt v ->
  base_ensure_valid_state self = Return tt.
Proof.
  intros Hb Hr Hv. unfold base_ensure_valid_state.
  rewrite Hb, Hr, Hv, chained_comparison_never. reflexivity.
Qed.

Lemma request_ensure_valid_state_int (self : t) (r : HoldingRegister) (v : Z) :
  transparent_ensure_valid_state (transparent self) = Return tt ->
  register self = Some r ->
  value self = VInt v ->
  request_ensure_valid_state self
  = if decide (r ∉ WRITE_SAFE_REGISTERS)
    then Raise (InvalidPduState NotSafeToWrite)
    else Return tt.
Proof.
  intros Hb Hr Hv. unfold request_ensure_valid_state.
  rewrite (base_ensure_valid_state_int self r v Hb Hr Hv), Hr. reflexivity.
Qed.

(** C1.  For a request whose register is outside [WRITE_SAFE_REGISTERS],
    whatever the integer value, [ensure_valid_state] raises
    [InvalidPduState] with the message of the unsafe register; [encode] and
    [encode_request] raise it too, and [encode] leaves the object as it was,
    without a payload builder.  For a register in the list the check
    passes. *)
Theorem request_refuses_unsafe_register
        (base : Transparent) (r : HoldingRegister) (v : Z) :
  transparent_init (<["register" := VRegister r]> (<["value" := VInt v]> ∅))
  = Return base ->
  transparent_ensure_valid_state base = Return tt ->
  let self := request base r (VInt v) None None in
  __init__ WriteHoldingRegisterRequest
    (<["register" := VRegister r]> (<["value" := VInt v]> ∅))
  = Return self
  /\ (r ∉ WRITE_SAFE_REGISTERS ->
      ensure_valid_state self = Raise (InvalidPduState NotSafeToWrite)
      /\ encode self = (Raise (InvalidPduState NotSafeToWrite), self)
      /\ encode_request (VRegister r) (VInt v)
         = Raise (InvalidPduState NotSafeToWrite))
  /\ (r ∈ WRITE_SAFE_REGISTERS -> ensure_valid_state self = Return tt).
Proof.
  intros Hinit Hvalid self.
  assert (Hnew : __init__ WriteHoldingRegisterRequest
                   (<["register" := VRegister r]> (<["value" := VInt v]> ∅))
                 = Return self).
  { unfold __init__, kwargs_get. rewrite Hinit.
    rewrite lookup_insert_eq. cbn [default].
    rewrite lookup_insert_ne by done. rewrite lookup_insert_eq. reflexivity. }
  assert (Hcheck : ensure_valid_state self
                   = if decide (r ∉ WRITE_SAFE_REGISTERS)
                     then Raise (InvalidPduState NotSafeToWrite)
                     else Return tt).
  { unfold ensure_valid_state. cbn [cls self request].
    apply (request_ensure_valid_state_int self r v); [exact Hvalid|reflexivity..]. }
  split; [exact Hnew|]. split.
  - intros Hout. rewrite decide_True in Hcheck by exact Hout.
    assert (Henc : encode self = (Raise (InvalidPduState NotSafeToWrite), self)).
    { unfold encode, bind at 1, get at 1. unfold bind at 1, lift at 1.
      rewrite Hcheck. reflexivity. }
    split; [exact Hcheck|]. split; [exact Henc|].
    unfold encode_request. rewrite Hnew, Henc. reflexivity.
  - intros Hin. rewrite decide_False in Hcheck by (intros Hn; exact (Hn Hin)).
    exact Hcheck.
Qed.

(** *** What [encode] produces *)

Lemma pack_H_bytes (v : Z) :
  0 <= v <= 0xFFFF -> Struct.pack_H v = Return (uint16_bytes v).
Proof. intros Hv. apply (proj1 (unpack_pack_H v Hv)). Qed.

Lemma add_16bit_uint_bytes (v : Z) (b : list byte) :
  0 <= v <= 0xFFFF ->
  BinaryPayloadBuilder.add_16bit_uint v b = Return (b ++ uint16_bytes v).
Proof.
  intros Hv. unfold BinaryPayloadBuilder.add_16bit_uint.
  rewrite pack_H_bytes by exact Hv. reflexivity.
Qed.

(** The five bytes the check code is computed over. *)
Lemma crc_builder_bytes (self : t) (r : HoldingRegister) (v : Z) :
  register self = Some r -> value self = VInt v ->
  0 <= register_value r <= 0xFFFF -> 0 <= v <= 0xFFFF ->
  crc_builder self
  = Return (x06 :: uint16_bytes (register_value r) ++ uint16_bytes v).
Proof.
  intros Hr Hv Rr Rv. unfold crc_builder, register_value_of.
  rewrite Hr, Hv. cbn [BinaryPayloadBuilder.int_arg].
  change (BinaryPayloadBuilder.add_8bit_uint inner_function_code [])
    with (@Return (list byte) [x06]).
  cbv beta iota. rewrite (add_16bit_uint_bytes (register_value r) [x06] Rr).
  cbv beta iota. rewrite (add_16bit_uint_bytes v _ Rv). reflexivity.
Qed.

Lemma encode_request_bytes (base : Transparent) (r : HoldingRegister) (v : Z)
      (pre : list byte) (c0 : option Z) (b0 : option (list byte)) :
  r ∈ WRITE_SAFE_REGISTERS ->
  0 <= register_value r <= 0xFFFF -> 0 <= v <= 0xFFFF ->
  transparent_ensure_valid_state base = Return tt ->
  transparent_encode_function_data base [] = Return pre ->
  let crc := CrcModbus.calc
               (x06 :: uint16_bytes (register_value r) ++ uint16_bytes v) in
  let pdu := ((pre ++ uint16_bytes (register_value r)) ++ uint16_bytes v)
             ++ uint16_bytes crc in
  encode (request base r (VInt v) c0 b0)
  = (Return pdu, request base r (VInt v) (Some crc) (Some pdu)).
Proof.
  intros Hin Rr Rv Hvalid Hpre crc pdu.
  pose proof (CrcModbus_range
                (x06 :: uint16_bytes (register_value r) ++ uint16_bytes v))
    as Rc. fold crc in Rc.
  assert (Hcheck : ensure_valid_state (request base r (VInt v) c0 b0)
                   = Return tt).
  { unfold ensure_valid_state. cbn [cls request].
    rewrite (request_ensure_valid_state_int _ r v)
      by (try reflexivity; exact Hvalid).
    apply decide_False. intros Hn. exact (Hn Hin). }
  unfold encode, bind at 1, get at 1. unfold bind at 1, lift at 1.
  rewrite Hcheck.
  cbv beta iota zeta delta
      [bind get put lift ret set_builder set_check builder_of
       register_value_of builder_add_16bit_uint _encode_function_data
       _update_check_code request_update_check_code
       cls transparent register value check _builder request
       BinaryPayloadBuilder.int_arg].
  rewrite Hpre. cbv beta iota.
  rewrite (add_16bit_uint_bytes (register_value r) pre Rr). cbv beta iota.
  rewrite (add_16bit_uint_bytes v _ Rv). cbv beta iota.
  rewrite (crc_builder_bytes _ r v) by (try reflexivity; assumption).
  fold crc. cbv beta iota.
  rewrite (add_16bit_uint_bytes crc _ Rc). reflexivity.
Qed.

(** [l[-2:]] of a sequence that ends with two given elements. *)
Lemma py_slice_from_last2 {A} (xs : list A) (a b : A) :
  py_slice_from (xs ++ [a; b]) (-2) = [a; b].
Proof.
  unfold py_slice_from, py_bound. rewrite length_app. cbn [length Z.ltb Z.compare].
  rewrite Z.max_r by lia.
  replace (Z.to_nat (Z.of_nat (length xs + 2) + -2)) with (length xs) by lia.
  apply drop_app_length.
Qed.

(** C5.  For a write-safe register [r] and a value [v] of 16 bits, the last
    two bytes of the encoded request are, big-endian, the Modbus CRC-16 of
    the five bytes 0x06, register address (two bytes, big-endian), value (two
    bytes, big-endian); the same number is kept in [check].  For the address
    0x1234 and the value 0x0005 these are the CRC of [06 12 34 00 05], the
    bytes [b5 28]. *)
Theorem check_code_is_modbus_crc
        (base : Transparent) (r : HoldingRegister) (v : Z) (pre : list byte)
        (c0 : option Z) (b0 : option (list byte)) :
  r ∈ WRITE_SAFE_REGISTERS ->
  0 <= register_value r <= 0xFFFF -> 0 <= v <= 0xFFFF ->
  transparent_ensure_valid_state base = Return tt ->
  transparent_encode_function_data base [] = Return pre ->
  let crc := crc16_modbus
               (x06 :: uint16_bytes (register_value r) ++ uint16_bytes v) in
  exists pdu self',
    encode (request base r (VInt v) c0 b0) = (Return pdu, self')
    /\ py_slice_from pdu (-2) = uint16_bytes crc
    /\ check self' = Some crc
    /\ (register_value r = 0x1234 -> v = 0x0005 ->
        crc = crc16_modbus [x06; x12; x34; x00; x05]
        /\ py_slice_from pdu (-2) = [xb5; x28]).
Proof.
  intros Hin Rr Rv Hvalid Hpre crc.
  pose proof (encode_request_bytes base r v pre c0 b0 Hin Rr Rv Hvalid Hpre)
    as Henc. cbv zeta in Henc.
  rewrite CrcModbus_is_crc16_modbus in Henc. fold crc in Henc.
  eexists. eexists. split; [exact Henc|].
  assert (Hlast : forall xs : list byte,
             py_slice_from (xs ++ uint16_bytes crc) (-2) = uint16_bytes crc)
    by (intros xs; apply py_slice_from_last2).
  split; [apply Hlast|]. split; [reflexivity|].
  intros Hr Hv. rewrite Hlast. subst crc. rewrite Hr, Hv.
  split; reflexivity.
Qed.

(** *** Decoding *)

Lemma decode_16bit_uint_bytes (payload xs ys : list byte) (x p : Z) :
  payload = xs ++ uint16_bytes x ++ ys ->
  p = Z.of_nat (length xs) ->
  0 <= x <= 0xFFFF ->
  PayloadDecoder.decode_16bit_uint
    {| PayloadDecoder._payload := payload; PayloadDecoder._pointer := p |}
  = (Return x,
     {| PayloadDecoder._payload := payload;
        PayloadDecoder._pointer := p + 2 |}).
Proof.
  intros -> -> Hx.
  cbv beta iota zeta delta
      [PayloadDecoder.decode_16bit_uint bind get put
       PayloadDecoder._payload PayloadDecoder._pointer].
  rewrite py_slice_take_drop by lia.
  rewrite Nat2Z.id, drop_app_length.
  replace (Z.to_nat (Z.of_nat (length xs) + 2 - Z.of_nat (length xs)))
    with 2%nat by lia.
  cbn [uint16_bytes app take firstn].
  unfold ret. rewrite (proj2 (unpack_pack_H x Hx)). reflexivity.
Qed.

(** [__init__] on keywords whose [register] is a register. *)
Lemma init_with_register (c : Class_) (kwargs : gmap string PyVal)
      (base : Transparent) (r : HoldingRegister) :
  transparent_init kwargs = Return base ->
  kwargs !! "register" = Some (VRegister r) ->
  __init__ c kwargs
  = Return {| cls := c; transparent := base; register := Some r;
              value := kwargs_get kwargs "value";
              check := None; _builder := None |}.
Proof.
  intros Hinit Hr. unfold __init__. rewrite Hinit.
  unfold kwargs_get at 1. rewrite Hr. reflexivity.
Qed.

(** C6.  For a write-safe register [r] and a value [v] of 16 bits: the
    request encodes to a PDU, [buildPacket] frames it, a framer fed the
    packet finds one complete frame whose payload [getFrame] returns is that
    PDU, and [_decode_inner_function], reading where the function data
    starts, builds a message whose register is [r] and whose value is
    [v]. *)
Theorem write_request_round_trip
        `{!EnumLaws}
        (base : Transparent) (r : HoldingRegister) (v : Z) (pre : list byte)
        (c0 : option Z) (b0 : option (list byte))
        (c : Class_) (attrs : gmap string PyVal) :
  r ∈ WRITE_SAFE_REGISTERS ->
  0 <= register_value r <= 0xFFFF -> 0 <= v <= 0xFFFF ->
  transparent_ensure_valid_state base = Return tt ->
  transparent_encode_function_data base [] = Return pre ->
  Z.of_nat (length pre) + 8 <= 0xFFFF ->
  (forall kwargs, exists b, transparent_init kwargs = Return b) ->
  exists pdu self' packet fr msg dec',
    encode (request base r (VInt v) c0 b0) = (Return pdu, self')
    /\ buildPacket (Return pdu) = Return packet
    /\ checkFrame (snd (addToFrame packet Framer_init)) = (Return true, fr)
    /\ getFrame fr = (Return pdu, fr)
    /\ _decode_inner_function c attrs
         {| PayloadDecoder._payload := pdu;
            PayloadDecoder._pointer := Z.of_nat (length pre) |}
       = (Return msg, dec')
    /\ cls msg = c
    /\ register msg = Some r
    /\ value msg = VInt v.
Proof.
  intros Hin Rr Rv Hvalid Hpre Hlen Hinit.
  pose proof (encode_request_bytes base r v pre c0 b0 Hin Rr Rv Hvalid Hpre)
    as Henc. cbv zeta in Henc.
  set (crc := CrcModbus.calc _) in Henc.
  pose proof (CrcModbus_range
                (x06 :: uint16_bytes (register_value r) ++ uint16_bytes v))
    as Rc. fold crc in Rc.
  set (pdu := ((pre ++ uint16_bytes (register_value r)) ++ uint16_bytes v)
              ++ uint16_bytes crc) in *.
  assert (Hpdu : Z.of_nat (length pdu) = Z.of_nat (length pre) + 6).
  { subst pdu. rewrite !length_app. cbn [uint16_bytes length]. lia. }
  set (n := Z.of_nat (length pdu)) in *.
  set (kw := <["check" := VInt crc]>
               (<["value" := VInt v]> (<["register" := VRegister r]> attrs))).
  destruct (Hinit kw) as [base' Hbase'].
  exists pdu, (request base r (VInt v) (Some crc) (Some pdu)).
  exists (header_bytes 0x5959 1 (n + 2) 1 2 ++ pdu).
  exists {| _buffer := header_bytes 0x5959 1 (n + 2) 1 2 ++ pdu;
            _length := n + 2 |}.
  exists {| cls := c; transparent := base'; register := Some r;
            value := VInt v; check := None; _builder := None |}.
  exists {| PayloadDecoder._payload := pdu;
            PayloadDecoder._pointer := Z.of_nat (length pre) + 2 + 2 + 2 |}.
  split; [exact Henc|]. split; [apply buildPacket_ok; lia|].
  split; [|split; [|split]].
  - cbn [addToFrame bind get put snd Framer_init _buffer _length app].
    rewrite (checkFrame_header _ pdu 0 0x5959 1 (n + 2) 1 2
               (header_bytes_length _ _ _ _ _))
      by (apply unpack_HHHBB_bytes; lia).
    cbn [sentinel_mismatch Z.eqb Pos.eqb negb orb].
    destruct (n + 2 <? 2) eqn:E1; [zbool; lia|].
    replace (_ >=? _) with true; [reflexivity|].
    symmetry. apply Z.geb_le. rewrite length_app, header_bytes_length.
    unfold _hsize. lia.
  - cbv beta iota zeta delta [getFrame bind get ret _buffer _length].
    unfold _hsize. rewrite py_slice_take_drop by lia.
    replace (Z.to_nat 8) with (length (header_bytes 0x5959 1 (n + 2) 1 2))
      by reflexivity.
    rewrite drop_app_length.
    replace (Z.to_nat (8 + (n + 2) - 2 - 8)) with (length pdu) by lia.
    rewrite firstn_all. reflexivity.
  - unfold _decode_inner_function, bind at 1.
    rewrite (decode_16bit_uint_bytes pdu pre
               (uint16_bytes v ++ uint16_bytes crc) (register_value r))
      by (subst pdu; rewrite <- ?app_assoc; reflexivity || lia).
    rewrite (proj2 (register_of_value_spec (register_value r) r) eq_refl).
    unfold bind at 1.
    rewrite (decode_16bit_uint_bytes pdu
               (pre ++ uint16_bytes (register_value r))
               (uint16_bytes crc) v)
      by (subst pdu; rewrite <- ?app_assoc, ?length_app;
          cbn [uint16_bytes length]; reflexivity || lia).
    unfold bind at 1.
    rewrite (decode_16bit_uint_bytes pdu
               ((pre ++ uint16_bytes (register_value r)) ++ uint16_bytes v)
               [] crc)
      by (subst pdu; rewrite ?app_nil_r, ?length_app;
          cbn [uint16_bytes length]; reflexivity || lia).
    unfold lift. fold kw.
    rewrite (init_with_register c kw base' r Hbase')
      by (subst kw; rewrite !lookup_insert_ne by done;
          apply lookup_insert_eq).
    unfold kwargs_get. subst kw.
    rewrite lookup_insert_ne by done. rewrite lookup_insert_eq. reflexivity.
  - split; [reflexivity|]. split; reflexivity.
Qed.

(** C10.  For a request that passed [ensure_valid_state],
    [expected_response] builds a [WriteHoldingRegisterResponse] with the
    request's register and the request's value, given to the base class
    with the request's slave address: when the base constructor keeps the
    [slave_address] keyword it is given, the response has the slave address
    of the request. *)
Theorem expected_response_mirrors_request (self : t) (base' : Transparent) :
  cls self = WriteHoldingRegisterRequest ->
  ensure_valid_state self = Return tt ->
  transparent_init (expected_response_kwargs self) = Return base' ->
  (forall kwargs b a,
      transparent_init kwargs = Return b ->
      kwargs !! "slave_address" = Some a -> slave_address b = a) ->
  exists resp,
    expected_response self = Return resp
    /\ cls resp = WriteHoldingRegisterResponse
    /\ register resp = register self
    /\ value resp = value self
    /\ slave_address (transparent resp) = slave_address (transparent self).
Proof.
  intros Hcls Hvalid Hinit Hkeeps.
  assert (Hreg : exists r, register self = Some r).
  { unfold ensure_valid_state in Hvalid. rewrite Hcls in Hvalid.
    unfold request_ensure_valid_state, base_ensure_valid_state in Hvalid.
    destruct (transparent_ensure_valid_state _); [|discriminate].
    destruct (register self) as [r|]; [eauto|discriminate]. }
  destruct Hreg as [r Hr].
  unfold expected_response.
  rewrite (init_with_register _ _ base' r Hinit).
  2: { unfold expected_response_kwargs, register_arg. rewrite Hr.
       apply lookup_insert_eq. }
  eexists. split; [reflexivity|]. cbn [cls register value transparent].
  split; [reflexivity|]. split; [symmetry; exact Hr|]. split.
  - unfold kwargs_get, expected_response_kwargs.
    rewrite lookup_insert_ne by done. rewrite lookup_insert_eq. reflexivity.
  - apply (Hkeeps _ _ _ Hinit). unfold expected_response_kwargs.
    rewrite !lookup_insert_ne by done. apply lookup_insert_eq.
Qed.

End Codec_facts.

(** ** The codec on the sample catalogue *)

Lemma Sample_init_total (kwargs : gmap string (@PyVal Sample.catalogue)) :
  exists b, @transparent_init _ Sample.base kwargs = Return b.
Proof. eexists. reflexivity. Qed.

Lemma Sample_init_keeps_slave_address
      (kwargs : gmap string (@PyVal Sample.catalogue)) b a :
  @transparent_init _ Sample.base kwargs = Return b ->
  kwargs !! "slave_address" = Some a ->
  @slave_address _ Sample.base b = a.
Proof. cbn. intros [= <-] ->. reflexivity. Qed.

Lemma Sample_charge_limit_is_safe :
  Sample.BATTERY_CHARGE_LIMIT ∈ @WRITE_SAFE_REGISTERS Sample.catalogue.
Proof. apply (bool_decide_unpack _). vm_compute. exact I. Qed.

Lemma Sample_device_type_is_not_safe :
  Sample.DEVICE_TYPE_CODE ∉ @WRITE_SAFE_REGISTERS Sample.catalogue.
Proof. apply (bool_decide_unpack _). vm_compute. exact I. Qed.

Lemma request_refuses_unsafe_register_witness :
  @encode_request Sample.catalogue Sample.base
    (@VRegister Sample.catalogue Sample.DEVICE_TYPE_CODE) (VInt 5)
  = Raise (InvalidPduState NotSafeToWrite)
  /\ ensure_valid_state (Sample.write_request Sample.DEVICE_TYPE_CODE 5)
     = Raise (InvalidPduState NotSafeToWrite).
Proof.
  pose proof (@request_refuses_unsafe_register Sample.catalogue Sample.base
                (VInt 0x32) Sample.DEVICE_TYPE_CODE 5 eq_refl eq_refl)
    as [_ [Hout _]].
  destruct (Hout Sample_device_type_is_not_safe) as (Hv & _ & He).
  split; [exact He|exact Hv].
Defined.

Lemma check_code_is_modbus_crc_witness :
  exists pdu self',
    encode (Sample.write_request Sample.BATTERY_CHARGE_LIMIT 5)
    = (Return pdu, self')
    /\ py_slice_from pdu (-2) = [xb5; x28].
Proof.
  destruct (@check_code_is_modbus_crc Sample.catalogue Sample.base
              (VInt 0x32) Sample.BATTERY_CHARGE_LIMIT 5 Sample.request_head
              None None Sample_charge_limit_is_safe)
    as (pdu & self' & Henc & _ & _ & Hex);
    [change (0 <= 0x1234 <= 0xFFFF); lia|lia|reflexivity|reflexivity|].
  exists pdu, self'. split; [exact Henc|]. apply Hex; reflexivity.
Defined.

Lemma write_request_round_trip_witness :
  exists pdu self' packet fr msg dec',
    encode (Sample.write_request Sample.BATTERY_CHARGE_LIMIT 5)
    = (Return pdu, self')
    /\ buildPacket (Return pdu) = Return packet
    /\ checkFrame (snd (addToFrame packet Framer_init)) = (Return true, fr)
    /\ getFrame fr = (Return pdu, fr)
    /\ @_decode_inner_function Sample.catalogue Sample.base
         WriteHoldingRegisterRequest ∅
         {| PayloadDecoder._payload := pdu;
            PayloadDecoder._pointer := Z.of_nat (length Sample.request_head) |}
       = (Return msg, dec')
    /\ cls msg = WriteHoldingRegisterRequest
    /\ register msg = Some Sample.BATTERY_CHARGE_LIMIT
    /\ value msg = VInt 5.
Proof.
  apply (@write_request_round_trip Sample.catalogue Sample.base
           Sample_enum_laws (VInt 0x32) Sample.BATTERY_CHARGE_LIMIT 5
           Sample.request_head None None WriteHoldingRegisterRequest ∅
           Sample_charge_limit_is_safe);
    [change (0 <= 0x1234 <= 0xFFFF); lia|lia|reflexivity|reflexivity
    |change (20 + 8 <= 0xFFFF); lia|apply Sample_init_total].
Defined.

Lemma expected_response_mirrors_request_witness :
  exists resp,
    expected_response (Sample.write_request Sample.BATTERY_CHARGE_LIMIT 5)
    = Return resp
    /\ cls resp = WriteHoldingRegisterResponse
    /\ register resp = Some Sample.BATTERY_CHARGE_LIMIT
    /\ value resp = VInt 5
    /\ slave_address (transparent resp) = VInt 0x32.
Proof.
  apply (@expected_response_mirrors_request Sample.catalogue Sample.base
           (Sample.write_request Sample.BATTERY_CHARGE_LIMIT 5) (VInt 0x32)
           eq_refl);
    [vm_compute; reflexivity|reflexivity|apply Sample_init_keeps_slave_address].
Defined.

(** C4 fails on the code.  The test [0 > self.value > 0xFFFF] is true of no
    integer ([chained_comparison_never]), so [ensure_valid_state] passes
    whatever the value ([base_ensure_valid_state_int]).  Here it passes for
    0x10000 and for -1 on a write-safe register, and the value is refused
    only later, by [struct.pack] inside [encode]. *)
Theorem ensure_valid_state_accepts_any_integer :
  ensure_valid_state (Sample.write_request Sample.BATTERY_CHARGE_LIMIT 0x10000)
  = Return tt
  /\ ensure_valid_state (Sample.write_request Sample.BATTERY_CHARGE_LIMIT (-1))
     = Return tt
  /\ fst (encode (Sample.write_request Sample.BATTERY_CHARGE_LIMIT 0x10000))
     = Raise StructError.
Proof.
  repeat split; vm_compute; reflexivity.
Qed.

(** * More of the framer *)

(** X9.  [buildPacket] puts the constant header, with the length of the PDU
    plus 2 in its length field, before the PDU; a PDU of more than 65533
    bytes does not fit the 16-bit field and [struct.pack] raises; what
    [message.encode()] raises goes through. *)
Theorem buildPacket_layout (pdu : list byte) (e : exn) :
  buildPacket (Return pdu)
  = (if Z.of_nat (length pdu) <=? 65533
     then Return (header_bytes 0x5959 0x0001 (Z.of_nat (length pdu) + 2)
                    0x01 0x02 ++ pdu)
     else Raise StructError)
  /\ buildPacket (Raise e) = Raise e.
Proof.
  split; [|reflexivity].
  destruct (Z.of_nat (length pdu) <=? 65533) eqn:E; zbool.
  - apply buildPacket_ok. lia.
  - destruct (buildPacket (Return pdu)) as [frame|e'] eqn:Hb.
    + apply buildPacket_frame in Hb. lia.
    + unfold buildPacket, frame_head, Struct.pack_HHHBB in Hb.
      destruct (Struct.pack_H 22873); [|injection Hb as <-; reflexivity].
      destruct (Struct.pack_H 1); [|injection Hb as <-; reflexivity].
      destruct (Struct.pack_H _); [|injection Hb as <-; reflexivity].
      destruct (Struct.pack_B 1); [|injection Hb as <-; reflexivity].
      destruct (Struct.pack_B 2); [discriminate|injection Hb as <-; reflexivity].
Qed.

(** X11.  With fewer than eight bytes buffered there is no header yet:
    [decode_data] returns the empty [dict], [checkFrame] answers [False],
    and neither touches the framer. *)
Theorem header_not_ready (data : list byte) (self : Framer) :
  (length (_buffer self) < 8)%nat ->
  decode_data data self = (Return ∅, self)
  /\ checkFrame self = (Return false, self).
Proof.
  intros Hlen. split; [|apply checkFrame_not_ready, Hlen].
  unfold decode_data, bind. rewrite isFrameReady_eq.
  replace (Z.of_nat (length (_buffer self)) >=? _hsize) with false;
    [reflexivity|].
  symmetry. apply not_true_is_false. rewrite Z.geb_le. unfold _hsize. lia.
Qed.

Lemma header_not_ready_witness :
  decode_data [] {| _buffer := [x59; x59; x00]; _length := 0 |}
  = (Return ∅, {| _buffer := [x59; x59; x00]; _length := 0 |})
  /\ checkFrame {| _buffer := [x59; x59; x00]; _length := 0 |}
     = (Return false, {| _buffer := [x59; x59; x00]; _length := 0 |}).
Proof.
  apply (header_not_ready [] {| _buffer := [x59; x59; x00]; _length := 0 |}).
  cbn. lia.
Defined.

(** X10.  [checkFrame] raises nothing but the [ValueError] of a corrupt
    header (the [KeyError] of the empty [dict] and [struct.error] cannot
    happen), and when it raises the framer has been reset. *)
Theorem checkFrame_raises_only_ValueError (self fr : Framer) (e : exn) :
  checkFrame self = (Raise e, fr) ->
  e = ValueError /\ fr = {| _buffer := []; _length := 0 |}.
Proof.
  destruct self as [buf l0].
  destruct (Nat.lt_ge_cases (length buf) 8) as [Hshort|Hready].
  { rewrite checkFrame_not_ready by exact Hshort. discriminate. }
  destruct (buffer_header_split buf Hready)
    as (h & rest & tid & pid & len_ & uid & fid & -> & Hh & Hu & Hlen).
  rewrite (checkFrame_header h rest l0 tid pid len_ uid fid Hh Hu).
  destruct (sentinel_mismatch tid pid uid fid).
  - intros [= <- <-]. split; reflexivity.
  - destruct (len_ <? 2); discriminate.
Qed.

Lemma checkFrame_raises_only_ValueError_witness :
  ValueError = ValueError
  /\ {| _buffer := []; _length := 0 |} = {| _buffer := []; _length := 0 |}.
Proof.
  apply (checkFrame_raises_only_ValueError
           {| _buffer := [x00; x00; x00; x01; x00; x03; x01; x02; xaa];
              _length := 0 |}
           {| _buffer := []; _length := 0 |} ValueError).
  reflexivity.
Defined.

(** X7.  On a header with the four sentinels and a declared length of at
    least 2, [checkFrame] stores the declared length, leaves the buffer as
    it is, and answers [True] exactly when the buffer holds
    [_hsize + length - 2] bytes or more. *)
Theorem checkFrame_complete_iff (len l0 : Z) (rest : list byte) :
  2 <= len <= 0xFFFF ->
  let buf := header_bytes 0x5959 1 len 1 2 ++ rest in
  exists b,
    checkFrame {| _buffer := buf; _length := l0 |}
    = (Return b, {| _buffer := buf; _length := len |})
    /\ (b = true <-> _hsize + len - 2 <= Z.of_nat (length buf)).
Proof.
  intros Hlen buf. subst buf.
  rewrite (checkFrame_header _ rest l0 0x5959 1 len 1 2
             (header_bytes_length _ _ _ _ _))
    by (apply unpack_HHHBB_bytes; lia).
  cbn [sentinel_mismatch Z.eqb Pos.eqb negb orb].
  destruct (len <? 2) eqn:E; [zbool; lia|].
  eexists. split; [reflexivity|]. apply Z.geb_le.
Qed.

Lemma checkFrame_complete_iff_witness :
  exists b,
    checkFrame {| _buffer := header_bytes 0x5959 1 4 1 2 ++ [xaa];
                  _length := 0 |}
    = (Return b, {| _buffer := header_bytes 0x5959 1 4 1 2 ++ [xaa];
                    _length := 4 |})
    /\ (b = true
        <-> _hsize + 4 - 2
            <= Z.of_nat (length (header_bytes 0x5959 1 4 1 2 ++ [xaa]))).
Proof.
  apply (checkFrame_complete_iff 4 0 [xaa]). lia.
Defined.

(** X8.  Framing round trip, for every PDU [buildPacket] accepts and
    whatever follows the packet in the buffer: [checkFrame] finds the frame
    complete, [getFrame] returns the PDU without touching the framer, and
    [advanceFrame] pops the packet and nothing else, and resets the stored
    length. *)
Theorem frame_round_trip (pdu packet rest : list byte) (l0 : Z) :
  buildPacket (Return pdu) = Return packet ->
  exists fr,
    checkFrame {| _buffer := packet ++ rest; _length := l0 |}
    = (Return true, fr)
    /\ getFrame fr = (Return pdu, fr)
    /\ advanceFrame fr = (Return tt, {| _buffer := rest; _length := 0 |}).
Proof.
  intros Hb. apply buildPacket_frame in Hb as [Hle ->].
  set (n := Z.of_nat (length pdu)) in *.
  set (h := header_bytes _ _ _ _ _).
  exists {| _buffer := h ++ pdu ++ rest; _length := n + 2 |}.
  assert (Hh : length h = 8%nat) by reflexivity.
  rewrite <- app_assoc. split; [|split].
  - rewrite (checkFrame_header h (pdu ++ rest) l0 0x5959 1 (n + 2) 1 2 Hh)
      by (apply unpack_HHHBB_bytes; lia).
    cbn [sentinel_mismatch Z.eqb Pos.eqb negb orb].
    destruct (n + 2 <? 2) eqn:E1; [zbool; lia|].
    replace (_ >=? _) with true; [reflexivity|].
    symmetry. apply Z.geb_le. rewrite !length_app, Hh. unfold _hsize. lia.
  - cbv beta iota zeta delta [getFrame bind get ret _buffer _length].
    unfold _hsize. rewrite py_slice_take_drop by lia.
    replace (Z.to_nat 8) with (length h) by reflexivity.
    rewrite drop_app_length.
    replace (Z.to_nat (8 + (n + 2) - 2 - 8)) with (length pdu) by lia.
    rewrite take_app_length. reflexivity.
  - cbv beta iota zeta delta [advanceFrame bind get put _buffer _length].
    unfold _hsize. rewrite py_slice_from_drop by lia.
    replace (Z.to_nat (8 + (n + 2) - 2)) with (length h + length pdu)%nat
      by (rewrite Hh; lia).
    rewrite <- drop_drop, drop_app_length, drop_app_length. reflexivity.
Qed.

Lemma frame_round_trip_witness :
  exists fr,
    checkFrame {| _buffer := [x59; x59; x00; x01; x00; x04; x01; x02; xbb; xcc]
                             ++ [x59; x59];
                  _length := 0 |}
    = (Return true, fr)
    /\ getFrame fr = (Return [xbb; xcc], fr)
    /\ advanceFrame fr = (Return tt, {| _buffer := [x59; x59]; _length := 0 |}).
Proof.
  apply (frame_round_trip [xbb; xcc] _ [x59; x59] 0). reflexivity.
Defined.

Section Stream_more.

Context {PDU : Type}.
Variable decoder_decode : list byte -> outcome (option PDU).
Variable function_code : PDU -> Z.

Abbreviation process_step := (process_step decoder_decode function_code).
Abbreviation processIncomingPacket :=
  (processIncomingPacket decoder_decode function_code).
Abbreviation feed_chunks := (feed_chunks decoder_decode function_code).

(** The loop is left by its [break] only, on a buffer too short for a
    header. *)
Lemma process_step_break (w w' : @Run PDU) :
  process_step w = (Return false, w') ->
  w' = w /\ (length (_buffer (framer w)) < 8)%nat.
Proof.
  destruct w as [[buf l0] cs]. cbn [framer _buffer].
  destruct (Nat.lt_ge_cases (length buf) 8) as [Hshort|Hready].
  { rewrite process_step_not_ready by exact Hshort. intros [= <-]. auto. }
  destruct (buffer_header_split buf Hready)
    as (h & rest & tid & pid & len_ & uid & fid & -> & Hh & Hu & Hlen).
  rewrite (process_step_header _ _ h rest l0 cs tid pid len_ uid fid Hh Hu).
  destruct (sentinel_mismatch tid pid uid fid); [discriminate|].
  destruct (len_ <? 2); [discriminate|].
  destruct (_ >=? _); [|discriminate].
  destruct (decoder_decode _) as [[m|]|e]; discriminate.
Qed.

Lemma while_true_leftover (fuel : nat) (w w' : @Run PDU) :
  while_true fuel process_step w = Some (Return tt, w') ->
  (length (_buffer (framer w')) < 8)%nat.
Proof.
  revert w. induction fuel as [|fuel IH]; intros w; [discriminate|].
  cbn [while_true]. destruct (process_step w) as [[[|]|e] s'] eqn:E.
  - apply IH.
  - intros [= <-]. apply process_step_break in E as [-> Hlen]. exact Hlen.
  - discriminate.
Qed.

(** X1.  The [while True] loop of [processIncomingPacket] always ends: each
    call returns or raises.  When it returns, fewer than eight bytes are
    left in the buffer. *)
Theorem processIncomingPacket_ends_and_drains (data : list byte)
        (w : @Run PDU) :
  exists o w',
    processIncomingPacket data w = Some (o, w')
    /\ (o = Return tt -> (length (_buffer (framer w')) < 8)%nat).
Proof.
  destruct (processIncomingPacket_returns decoder_decode function_code data w)
    as [[o w'] Hr].
  exists o, w'. split; [exact Hr|]. intros ->.
  destruct w as [f cs]. rewrite processIncomingPacket_eq in Hr.
  apply while_true_leftover in Hr. exact Hr.
Qed.

(** X2.  Bytes that do not make up a header with what is buffered are only
    appended: no frame is looked for and the callback is not called. *)
Theorem processIncomingPacket_buffers_short_input (data : list byte)
        (w : @Run PDU) :
  (length (_buffer (framer w) ++ data) < 8)%nat ->
  processIncomingPacket data w
  = Some (Return tt,
          {| framer := {| _buffer := _buffer (framer w) ++ data;
                          _length := _length (framer w) |};
             callback_calls := callback_calls w |}).
Proof.
  intros Hlen. destruct w as [f cs]. cbn [framer callback_calls] in *.
  rewrite processIncomingPacket_eq.
  apply while_true_not_ready. exact Hlen.
Qed.

Lemma frames_length (pdus frames : list (list byte)) :
  Forall2 (fun pdu frame => buildPacket (Return pdu) = Return frame)
          pdus frames ->
  (length frames <= length (concat frames))%nat.
Proof.
  induction 1 as [|pdu frame pdus frames Hb _ IH]; [reflexivity|].
  apply buildPacket_frame in Hb as [_ ->].
  cbn [concat length]. rewrite !length_app, header_bytes_length. lia.
Qed.

Lemma while_true_frames (pdus frames : list (list byte)) (ms : list PDU)
      (tail : list byte) :
  Forall2 (fun pdu frame => buildPacket (Return pdu) = Return frame)
          pdus frames ->
  Forall2 (fun pdu m => decoder_decode pdu = Return (Some m)) pdus ms ->
  (length tail < 8)%nat ->
  forall (fuel : nat) (cs : list PDU),
    (length frames < fuel)%nat ->
    while_true fuel process_step
      {| framer := {| _buffer := concat frames ++ tail; _length := 0 |};
         callback_calls := cs |}
    = Some (Return tt,
            {| framer := {| _buffer := tail; _length := 0 |};
               callback_calls := cs ++ ms |}).
Proof.
  intros Hb. revert ms.
  induction Hb as [|pdu frame pdus frames Hb _ IH]; intros ms Hd Htail fuel cs Hf.
  - apply Forall2_nil_inv_l in Hd as ->. rewrite app_nil_r.
    destruct fuel as [|fuel]; [cbn in Hf; lia|].
    apply while_true_not_ready. exact Htail.
  - apply Forall2_cons_inv_l in Hd as (m & ms' & Hm & Hd & ->).
    destruct fuel as [|fuel]; [cbn in Hf; lia|].
    cbn [concat]. rewrite <- app_assoc.
    rewrite (while_true_frame _ _ fuel pdu frame _ 0 cs m Hb Hm).
    rewrite (IH ms' Hd Htail fuel (cs ++ [m])) by (cbn in Hf; lia).
    rewrite <- app_assoc. reflexivity.
Qed.

(** X3.  Any number of packets in one chunk, followed by fewer than eight
    bytes of the next: one call hands every decoded PDU to the callback, in
    the order of arrival, and keeps the bytes that follow the last
    packet. *)
Theorem frames_in_one_chunk (pdus frames : list (list byte)) (ms : list PDU)
        (tail : list byte) (cs : list PDU) :
  Forall2 (fun pdu frame => buildPacket (Return pdu) = Return frame)
          pdus frames ->
  Forall2 (fun pdu m => decoder_decode pdu = Return (Some m)) pdus ms ->
  (length tail < 8)%nat ->
  processIncomingPacket (concat frames ++ tail)
    {| framer := Framer_init; callback_calls := cs |}
  = Some (Return tt,
          {| framer := {| _buffer := tail; _length := 0 |};
             callback_calls := cs ++ ms |}).
Proof.
  intros Hb Hd Htail. unfold Framer_init.
  rewrite processIncomingPacket_eq. cbn [_buffer _length app].
  apply (while_true_frames pdus frames ms tail Hb Hd Htail).
  pose proof (frames_length pdus frames Hb). rewrite length_app. lia.
Qed.

(** X4.  A packet cut inside its eight header bytes is not lost: the first
    part waits in the buffer and the call that brings the rest delivers the
    PDU, as one call on the whole packet does. *)
Theorem frame_split_inside_header (pdu frame : list byte) (m : PDU)
        (k : nat) (cs : list PDU) :
  buildPacket (Return pdu) = Return frame ->
  decoder_decode pdu = Return (Some m) ->
  (k < 8)%nat ->
  feed_chunks [take k frame; drop k frame]
    {| framer := Framer_init; callback_calls := cs |}
  = Some (Return tt,
          {| framer := {| _buffer := []; _length := 0 |};
             callback_calls := cs ++ [m] |})
  /\ feed_chunks [frame] {| framer := Framer_init; callback_calls := cs |}
     = feed_chunks [take k frame; drop k frame]
         {| framer := Framer_init; callback_calls := cs |}.
Proof.
  intros Hb Hd Hk.
  assert (Hwhole : processIncomingPacket frame
                     {| framer := Framer_init; callback_calls := cs |}
                   = Some (Return tt,
                           {| framer := {| _buffer := []; _length := 0 |};
                              callback_calls := cs ++ [m] |})).
  { pose proof (frames_in_one_chunk [pdu] [frame] [m] [] cs) as Hone.
    cbn [concat] in Hone. rewrite !app_nil_r in Hone.
    apply Hone; [repeat constructor; assumption..|cbn; lia]. }
  assert (Hsplit : feed_chunks [take k frame; drop k frame]
                     {| framer := Framer_init; callback_calls := cs |}
                   = Some (Return tt,
                           {| framer := {| _buffer := []; _length := 0 |};
                              callback_calls := cs ++ [m] |})).
  { cbn [GivEnergyModbusFramer.feed_chunks].
    rewrite processIncomingPacket_buffers_short_input
      by (cbn [framer Framer_init _buffer app]; rewrite length_take; lia).
    cbn [framer Framer_init _buffer _length callback_calls app].
    rewrite processIncomingPacket_eq. cbn [_buffer _length].
    rewrite take_drop. rewrite processIncomingPacket_eq in Hwhole.
    cbn [Framer_init _buffer _length app] in Hwhole. rewrite Hwhole.
    reflexivity. }
  split; [exact Hsplit|]. rewrite Hsplit.
  cbn [GivEnergyModbusFramer.feed_chunks]. rewrite Hwhole. reflexivity.
Qed.

(** A complete frame at the head of the buffer, whatever the decoder makes
    of it. *)
Lemma process_step_frame_decoded (pdu frame rest : list byte) (l0 : Z)
      (cs : list PDU) :
  buildPacket (Return pdu) = Return frame ->
  process_step {| framer := {| _buffer := frame ++ rest; _length := l0 |};
                  callback_calls := cs |}
  = match decoder_decode pdu with
    | Return (Some m) =>
        (Return true,
         {| framer := {| _buffer := rest; _length := 0 |};
            callback_calls := cs ++ [m] |})
    | Return None =>
        (Raise ModbusIOException,
         {| framer := {| _buffer := frame ++ rest;
                         _length := Z.of_nat (length pdu) + 2 |};
            callback_calls := cs |})
    | Raise e =>
        (Raise e,
         {| framer := {| _buffer := frame ++ rest;
                         _length := Z.of_nat (length pdu) + 2 |};
            callback_calls := cs |})
    end.
Proof.
  intros Hb.
  destruct (decoder_decode pdu) as [[m|]|e] eqn:Hd.
  { apply (process_step_frame _ _ pdu frame rest l0 cs m Hb Hd). }
  all: apply buildPacket_frame in Hb as [Hle ->].
  all: set (n := Z.of_nat (length pdu)) in *.
  all: set (h := header_bytes _ _ _ _ _).
  all: rewrite <- app_assoc.
  all: rewrite (process_step_header _ _ h (pdu ++ rest) l0 cs
                  0x5959 1 (n + 2) 1 2)
    by (try reflexivity; apply unpack_HHHBB_bytes; lia).
  all: cbn [sentinel_mismatch Z.eqb Pos.eqb negb orb].
  all: destruct (n + 2 <? 2) eqn:E1; [zbool; lia|].
  all: replace (_ >=? _) with true
    by (symmetry; apply Z.geb_le; rewrite !length_app;
        subst h n; rewrite header_bytes_length; unfold _hsize; lia).
  all: unfold _hsize; rewrite py_slice_take_drop by lia.
  all: replace (Z.to_nat 8) with (length h) by reflexivity.
  all: rewrite drop_app_length.
  all: replace (Z.to_nat (8 + (n + 2) - 2 - 8)) with (length pdu) by lia.
  all: rewrite take_app_length, Hd; reflexivity.
Qed.

(** X5.  When the decoder returns [None] for a complete frame,
    [processIncomingPacket] raises [ModbusIOException] before
    [advanceFrame]: the callback is not called and the frame stays at the
    head of the buffer, so that the next call, even with no new bytes, meets
    the same frame and raises again. *)
Theorem undecodable_frame_stays (pdu frame rest : list byte) (l0 : Z)
        (cs : list PDU) :
  buildPacket (Return pdu) = Return frame ->
  decoder_decode pdu = Return None ->
  let stuck := {| framer := {| _buffer := frame ++ rest;
                               _length := Z.of_nat (length pdu) + 2 |};
                  callback_calls := cs |} in
  processIncomingPacket (frame ++ rest)
    {| framer := {| _buffer := []; _length := l0 |}; callback_calls := cs |}
  = Some (Raise ModbusIOException, stuck)
  /\ processIncomingPacket [] stuck = Some (Raise ModbusIOException, stuck).
Proof.
  intros Hb Hd stuck. subst stuck. split.
  - rewrite processIncomingPacket_eq. cbn [_buffer _length app while_true].
    rewrite (process_step_frame_decoded pdu frame rest l0 cs Hb), Hd.
    reflexivity.
  - rewrite processIncomingPacket_eq. cbn [_buffer _length while_true].
    rewrite app_nil_r.
    rewrite (process_step_frame_decoded pdu frame rest _ cs Hb), Hd.
    reflexivity.
Qed.

(** X6.  In [processIncomingPacket] a header with the four sentinels and a
    declared length below 2 costs the whole buffer: [checkFrame] answers
    [False], the framer is reset, and the call returns without the callback
    being called, whatever followed that header in the chunk. *)
Theorem short_length_resets_stream (len l0 : Z) (rest : list byte)
        (cs : list PDU) :
  0 <= len < 2 ->
  processIncomingPacket (header_bytes 0x5959 1 len 1 2 ++ rest)
    {| framer := {| _buffer := []; _length := l0 |}; callback_calls := cs |}
  = Some (Return tt, reset_run cs).
Proof.
  intros Hlen. rewrite processIncomingPacket_eq.
  cbn [_buffer _length app]. rewrite length_app, header_bytes_length.
  cbn [while_true Nat.add].
  rewrite (process_step_header _ _ _ rest l0 cs 0x5959 1 len 1 2
             (header_bytes_length _ _ _ _ _))
    by (apply unpack_HHHBB_bytes; lia).
  cbn [sentinel_mismatch Z.eqb Pos.eqb negb orb].
  destruct (len <? 2) eqn:E; [|zbool; lia].
  rewrite process_step_not_ready by (cbn; lia). reflexivity.
Qed.

End Stream_more.

Lemma processIncomingPacket_buffers_short_input_witness :
  processIncomingPacket Sample.raw_decode Sample.raw_function_code
    [x59; x59; x00] Run_init
  = Some (Return tt,
          {| framer := {| _buffer := [x59; x59; x00]; _length := 0 |};
             callback_calls := [] |}).
Proof.
  apply (processIncomingPacket_buffers_short_input
           Sample.raw_decode Sample.raw_function_code [x59; x59; x00] Run_init).
  cbn. lia.
Defined.

Lemma frames_in_one_chunk_witness :
  processIncomingPacket Sample.raw_decode Sample.raw_function_code
    (concat [Fixtures.packet_aa; Fixtures.packet_bbcc; Fixtures.packet_aa]
     ++ [x59; x59; x00])
    {| framer := Framer_init; callback_calls := [] |}
  = Some (Return tt,
          {| framer := {| _buffer := [x59; x59; x00]; _length := 0 |};
             callback_calls := [] ++ [[xaa]; [xbb; xcc]; [xaa]] |}).
Proof.
  apply (frames_in_one_chunk Sample.raw_decode Sample.raw_function_code
           [[xaa]; [xbb; xcc]; [xaa]]);
    [repeat constructor..|cbn; lia].
Defined.

Lemma frame_split_inside_header_witness :
  feed_chunks Sample.raw_decode Sample.raw_function_code
    [take 3 Fixtures.packet_aa; drop 3 Fixtures.packet_aa]
    {| framer := Framer_init; callback_calls := [] |}
  = Some (Return tt,
          {| framer := {| _buffer := []; _length := 0 |};
             callback_calls := [] ++ [[xaa]] |}).
Proof.
  apply (frame_split_inside_header Sample.raw_decode Sample.raw_function_code
           [xaa] Fixtures.packet_aa [xaa] 3 []); [reflexivity..|lia].
Defined.

Lemma undecodable_frame_stays_witness :
  processIncomingPacket Fixtures.none_decode Sample.raw_function_code
    (Fixtures.packet_aa ++ [x59])
    {| framer := {| _buffer := []; _length := 0 |}; callback_calls := [] |}
  = Some (Raise ModbusIOException,
          {| framer := {| _buffer := Fixtures.packet_aa ++ [x59];
                          _length := Z.of_nat (length [xaa]) + 2 |};
             callback_calls := [] |}).
Proof.
  apply (undecodable_frame_stays Fixtures.none_decode Sample.raw_function_code
           [xaa] Fixtures.packet_aa [x59] 0 []); reflexivity.
Defined.

Lemma short_length_resets_stream_witness :
  processIncomingPacket Sample.raw_decode Sample.raw_function_code
    (header_bytes 0x5959 1 1 1 2 ++ Fixtures.packet_aa)
    {| framer := {| _buffer := []; _length := 0 |}; callback_calls := [] |}
  = Some (Return tt, reset_run []).
Proof.
  apply (short_length_resets_stream Sample.raw_decode Sample.raw_function_code
           1 0 Fixtures.packet_aa []). lia.
Defined.

(** * More of the codec *)

Section Codec_more.

Context `{TransparentBase}.

(** X12.  [__init__] takes the register as an enum member, as its number or
    as its name, and ends with the same object; neither the register nor the
    value is validated there. *)
Theorem init_accepts_member_value_or_name
        `{!EnumLaws} (c : Class_) (kwargs : gmap string PyVal)
        (base : Transparent) (r : HoldingRegister) (arg : PyVal) :
  arg = VRegister r \/ arg = VInt (register_value r)
  \/ arg = VStr (register_name r) ->
  transparent_init (<["register" := arg]> kwargs) = Return base ->
  __init__ c (<["register" := arg]> kwargs)
  = Return {| cls := c; transparent := base; register := Some r;
              value := kwargs_get kwargs "value";
              check := None; _builder := None |}.
Proof.
  intros Harg Hinit. unfold __init__. rewrite Hinit.
  unfold kwargs_get. rewrite lookup_insert_eq. cbn [default].
  rewrite lookup_insert_ne by done.
  destruct Harg as [-> | [-> | ->]]; cbv beta iota delta [id].
  - reflexivity.
  - rewrite (proj2 (register_of_value_spec _ r) eq_refl). reflexivity.
  - rewrite (proj2 (register_of_name_spec _ r) eq_refl). reflexivity.
Qed.

(** X13.  What [__init__] raises: the exception of the base constructor
    first; then [InvalidPduState] when [register] is missing or [None],
    [ValueError] for a number that is no register, [KeyError] for a name
    that is no register, [ValueError] for another type. *)
Theorem init_rejects_bad_register (c : Class_) (kwargs : gmap string PyVal) :
  (forall e, transparent_init kwargs = Raise e -> __init__ c kwargs = Raise e)
  /\ (forall base, transparent_init kwargs = Return base ->
      (kwargs !! "register" = None \/ kwargs !! "register" = Some VNone ->
       __init__ c kwargs = Raise (InvalidPduState RegisterMustBeSet))
      /\ (forall z, kwargs !! "register" = Some (VInt z) ->
                    register_of_value z = None ->
                    __init__ c kwargs = Raise ValueError)
      /\ (forall s, kwargs !! "register" = Some (VStr s) ->
                    register_of_name s = None ->
                    __init__ c kwargs = Raise KeyError)
      /\ (forall b, kwargs !! "register" = Some (VBytes b) ->
                    __init__ c kwargs = Raise ValueError)).
Proof.
  split.
  - intros e He. unfold __init__. rewrite He. reflexivity.
  - intros base Hb. unfold __init__, kwargs_get. rewrite Hb.
    split; [|split; [|split]].
    + intros [-> | ->]; reflexivity.
    + intros z -> Hz. cbv beta iota delta [default from_option id].
      rewrite Hz. reflexivity.
    + intros s0 -> Hs. cbv beta iota delta [default from_option id].
      rewrite Hs. reflexivity.
    + intros b ->. reflexivity.
Qed.

(** X14.  The order of the checks of [ensure_valid_state], for a request
    and for a response alike: what the base class raises comes first; then
    a missing register; then a missing value, also when the register is
    outside the write-safe list. *)
Theorem ensure_valid_state_missing_fields (self : t) :
  (forall e, transparent_ensure_valid_state (transparent self) = Raise e ->
             ensure_valid_state self = Raise e)
  /\ (transparent_ensure_valid_state (transparent self) = Return tt ->
      (register self = None ->
       ensure_valid_state self = Raise (InvalidPduState RegisterMustBeSet))
      /\ (forall r, register self = Some r -> value self = VNone ->
                    ensure_valid_state self
                    = Raise (InvalidPduState RegisterValueMustBeSet))).
Proof.
  unfold ensure_valid_state, request_ensure_valid_state,
    response_ensure_valid_state, base_ensure_valid_state.
  split.
  - intros e ->. destruct (cls self); reflexivity.
  - intros ->. split.
    + intros ->. destruct (cls self); reflexivity.
    + intros r -> ->. destruct (cls self); reflexivity.
Qed.

(** X15.  With a register and an integer value set, and the base class
    content, [ensure_valid_state] passes exactly when the message is a
    response or the register is write-safe: the list gates requests only. *)
Theorem ensure_valid_state_int_iff (self : t) (r : HoldingRegister) (v : Z) :
  transparent_ensure_valid_state (transparent self) = Return tt ->
  register self = Some r ->
  value self = VInt v ->
  (ensure_valid_state self = Return tt
   <-> cls self = WriteHoldingRegisterResponse \/ r ∈ WRITE_SAFE_REGISTERS).
Proof.
  intros Hb Hr Hv. unfold ensure_valid_state.
  destruct (cls self) eqn:Hc.
  - rewrite (request_ensure_valid_state_int self r v Hb Hr Hv).
    destruct (decide (r ∉ WRITE_SAFE_REGISTERS)) as [Hout|Hin].
    + split; [discriminate|]. intros [Hd|Hin]; [discriminate|].
      exfalso. exact (Hout Hin).
    + split; [|reflexivity]. intros _. right.
      destruct (decide (r ∈ WRITE_SAFE_REGISTERS)) as [Hy|Hn]; [exact Hy|].
      exfalso. exact (Hin Hn).
  - unfold response_ensure_valid_state.
    rewrite (base_ensure_valid_state_int self r v Hb Hr Hv).
    split; [intros _; left; reflexivity|reflexivity].
Qed.

(** X16.  The whole PDU of a request for a write-safe register and a
    16-bit value: what the base class writes, then the register address,
    the value and the check code, two bytes each, big-endian; six bytes
    more than the base class wrote.  [encode] leaves these bytes in
    [_builder] and the check code in [check]. *)
Theorem encoded_request_layout
        (base : Transparent) (r : HoldingRegister) (v : Z) (pre : list byte)
        (c0 : option Z) (b0 : option (list byte)) :
  r ∈ WRITE_SAFE_REGISTERS ->
  0 <= register_value r <= 0xFFFF -> 0 <= v <= 0xFFFF ->
  transparent_ensure_valid_state base = Return tt ->
  transparent_encode_function_data base [] = Return pre ->
  let crc := crc16_modbus
               (x06 :: uint16_bytes (register_value r) ++ uint16_bytes v) in
  let pdu := pre ++ uint16_bytes (register_value r) ++ uint16_bytes v
             ++ uint16_bytes crc in
  encode (request base r (VInt v) c0 b0)
  = (Return pdu, request base r (VInt v) (Some crc) (Some pdu))
  /\ length pdu = (length pre + 6)%nat.
Proof.
  intros Hin Rr Rv Hvalid Hpre crc pdu.
  pose proof (encode_request_bytes base r v pre c0 b0 Hin Rr Rv Hvalid Hpre)
    as Henc. cbv zeta in Henc.
  rewrite CrcModbus_is_crc16_modbus in Henc. fold crc in Henc.
  rewrite <- !app_assoc in Henc. split; [exact Henc|].
  subst pdu. rewrite !length_app. reflexivity.
Qed.

Lemma add_16bit_uint_out_of_range (v : Z) (b : list byte) :
  ~ (0 <= v <= 0xFFFF) ->
  BinaryPayloadBuilder.add_16bit_uint v b = Raise StructError.
Proof.
  intros Hv. unfold BinaryPayloadBuilder.add_16bit_uint, Struct.pack_H.
  destruct (0 <=? v) eqn:E1; [|reflexivity].
  destruct (v <=? 0xFFFF) eqn:E2; [|reflexivity]. zbool. lia.
Qed.

(** X17.  A value outside 16 bits passes [ensure_valid_state] and is
    refused by [struct.pack] inside [encode], as [struct.error]: by then the
    builder holds what the base class wrote and the register address, and
    no check code has been computed. *)
Theorem encode_out_of_range_value
        (base : Transparent) (r : HoldingRegister) (v : Z) (pre : list byte)
        (c0 : option Z) (b0 : option (list byte)) :
  r ∈ WRITE_SAFE_REGISTERS ->
  0 <= register_value r <= 0xFFFF -> ~ (0 <= v <= 0xFFFF) ->
  transparent_ensure_valid_state base = Return tt ->
  transparent_encode_function_data base [] = Return pre ->
  encode (request base r (VInt v) c0 b0)
  = (Raise StructError,
     request base r (VInt v) c0
       (Some (pre ++ uint16_bytes (register_value r)))).
Proof.
  intros Hin Rr Rv Hvalid Hpre.
  assert (Hcheck : ensure_valid_state (request base r (VInt v) c0 b0)
                   = Return tt).
  { unfold ensure_valid_state. cbn [cls request].
    rewrite (request_ensure_valid_state_int _ r v)
      by (try reflexivity; exact Hvalid).
    apply decide_False. intros Hn. exact (Hn Hin). }
  unfold encode, bind at 1, get at 1. unfold bind at 1, lift at 1.
  rewrite Hcheck.
  cbv beta iota zeta delta
      [bind get put lift ret set_builder set_check builder_of
       register_value_of builder_add_16bit_uint _encode_function_data
       _update_check_code request_update_check_code
       cls transparent register value check _builder request
       BinaryPayloadBuilder.int_arg].
  rewrite Hpre. cbv beta iota.
  rewrite (add_16bit_uint_bytes (register_value r) pre Rr). cbv beta iota.
  rewrite (add_16bit_uint_out_of_range v _ Rv). reflexivity.
Qed.

(** *** Decoding *)

Lemma decode_16bit_uint_returns (payload : list byte) (p x : Z)
      (d : PayloadDecoder.t) :
  0 <= p ->
  PayloadDecoder.decode_16bit_uint
    {| PayloadDecoder._payload := payload; PayloadDecoder._pointer := p |}
  = (Return x, d) ->
  d = {| PayloadDecoder._payload := payload;
         PayloadDecoder._pointer := p + 2 |}
  /\ p + 2 <= Z.of_nat (length payload).
Proof.
  intros Hp.
  cbv beta iota zeta delta
      [PayloadDecoder.decode_16bit_uint bind get put
       PayloadDecoder._payload PayloadDecoder._pointer].
  rewrite py_slice_take_drop by lia.
  destruct (take _ _) as [|a [|b [|c s]]] eqn:E; try discriminate.
  unfold ret. intros [= _ <-]. split; [reflexivity|].
  apply (f_equal length) in E. rewrite length_take, length_drop in E.
  cbn [length] in E. lia.
Qed.

(** X18.  [_decode_inner_function] needs six bytes from where it starts
    reading: on a shorter span it raises and builds no message. *)
Theorem decode_needs_six_bytes
        (c : Class_) (attrs : gmap string PyVal) (payload : list byte)
        (p : Z) :
  0 <= p ->
  Z.of_nat (length payload) < p + 6 ->
  raised (fst (_decode_inner_function c attrs
                 {| PayloadDecoder._payload := payload;
                    PayloadDecoder._pointer := p |})) = true.
Proof.
  intros Hp Hshort. unfold _decode_inner_function, bind at 1.
  destruct (PayloadDecoder.decode_16bit_uint _) as [[x1|e1] d1] eqn:E1;
    [|reflexivity].
  apply decode_16bit_uint_returns in E1 as [-> H1]; [|lia].
  destruct (register_of_value x1) as [reg|]; [|reflexivity].
  unfold bind at 1.
  destruct (PayloadDecoder.decode_16bit_uint _) as [[x2|e2] d2] eqn:E2;
    [|reflexivity].
  apply decode_16bit_uint_returns in E2 as [-> H2]; [|lia].
  unfold bind at 1.
  destruct (PayloadDecoder.decode_16bit_uint _) as [[x3|e3] d3] eqn:E3;
    [|reflexivity].
  apply decode_16bit_uint_returns in E3 as [-> H3]; lia.
Qed.

(** X19.  Decoding trusts the wire: register, value and check code are
    read in that order, two bytes each, the read position moves on by six
    bytes, and the message is built whatever the check code is (no CRC is
    recomputed) and whatever the register is (the write-safe list is not
    consulted). *)
Theorem decode_ignores_check_code
        `{!EnumLaws} (c : Class_) (attrs : gmap string PyVal)
        (base' : Transparent) (r : HoldingRegister) (v chk : Z)
        (pre tail : list byte) :
  0 <= register_value r <= 0xFFFF -> 0 <= v <= 0xFFFF ->
  0 <= chk <= 0xFFFF ->
  transparent_init
    (<["check" := VInt chk]>
       (<["value" := VInt v]> (<["register" := VRegister r]> attrs)))
  = Return base' ->
  let payload := pre ++ uint16_bytes (register_value r) ++ uint16_bytes v
                 ++ uint16_bytes chk ++ tail in
  _decode_inner_function c attrs
    {| PayloadDecoder._payload := payload;
       PayloadDecoder._pointer := Z.of_nat (length pre) |}
  = (Return {| cls := c; transparent := base'; register := Some r;
               value := VInt v; check := None; _builder := None |},
     {| PayloadDecoder._payload := payload;
        PayloadDecoder._pointer := Z.of_nat (length pre) + 6 |}).
Proof.
  intros Rr Rv Rc Hinit payload.
  unfold _decode_inner_function, bind at 1.
  rewrite (decode_16bit_uint_bytes payload pre
             (uint16_bytes v ++ uint16_bytes chk ++ tail) (register_value r))
    by (reflexivity || lia).
  rewrite (proj2 (register_of_value_spec (register_value r) r) eq_refl).
  unfold bind at 1.
  rewrite (decode_16bit_uint_bytes payload
             (pre ++ uint16_bytes (register_value r))
             (uint16_bytes chk ++ tail) v)
    by (subst payload; rewrite <- ?app_assoc, ?length_app;
        cbn [uint16_bytes length]; reflexivity || lia).
  unfold bind at 1.
  rewrite (decode_16bit_uint_bytes payload
             ((pre ++ uint16_bytes (register_value r)) ++ uint16_bytes v)
             tail chk)
    by (subst payload; rewrite <- ?app_assoc, ?length_app;
        cbn [uint16_bytes length]; reflexivity || lia).
  unfold lift.
  rewrite (init_with_register c _ base' r Hinit)
    by (rewrite !lookup_insert_ne by done; apply lookup_insert_eq).
  unfold kwargs_get.
  rewrite lookup_insert_ne by done. rewrite lookup_insert_eq.
  replace (Z.of_nat (length pre) + 6) with (Z.of_nat (length pre) + 2 + 2 + 2)
    by lia.
  reflexivity.
Qed.

(** X20.  A register number the catalogue does not have makes
    [_decode_inner_function] raise [ValueError] as soon as it is read,
    before the value and the check code are. *)
Theorem decode_unknown_register
        (c : Class_) (attrs : gmap string PyVal) (x : Z)
        (pre tail : list byte) :
  0 <= x <= 0xFFFF ->
  register_of_value x = None ->
  _decode_inner_function c attrs
    {| PayloadDecoder._payload := pre ++ uint16_bytes x ++ tail;
       PayloadDecoder._pointer := Z.of_nat (length pre) |}
  = (Raise ValueError,
     {| PayloadDecoder._payload := pre ++ uint16_bytes x ++ tail;
        PayloadDecoder._pointer := Z.of_nat (length pre) + 2 |}).
Proof.
  intros Rx Hx. unfold _decode_inner_function, bind at 1.
  rewrite (decode_16bit_uint_bytes _ pre tail x) by (reflexivity || lia).
  rewrite Hx. reflexivity.
Qed.

(** X21.  The response a valid request expects is itself valid, provided
    the base class is content with what its constructor built. *)
Theorem expected_response_is_valid (self : t) (base' : Transparent) :
  cls self = WriteHoldingRegisterRequest ->
  ensure_valid_state self = Return tt ->
  transparent_init (expected_response_kwargs self) = Return base' ->
  transparent_ensure_valid_state base' = Return tt ->
  exists resp,
    expected_response self = Return resp
    /\ ensure_valid_state resp = Return tt.
Proof.
  intros Hcls Hvalid Hinit Hbase'.
  unfold ensure_valid_state in Hvalid. rewrite Hcls in Hvalid.
  unfold request_ensure_valid_state, base_ensure_valid_state in Hvalid.
  destruct (transparent_ensure_valid_state (transparent self));
    [|discriminate].
  destruct (register self) as [r|] eqn:Hr; [|discriminate].
  destruct (value self) as [|v| | |] eqn:Hv; try discriminate.
  unfold expected_response.
  rewrite (init_with_register _ _ base' r Hinit).
  2: { unfold expected_response_kwargs, register_arg. rewrite Hr.
       apply lookup_insert_eq. }
  eexists. split; [reflexivity|].
  apply (ensure_valid_state_int_iff _ r v); [exact Hbase'|reflexivity| |].
  - cbn [value]. unfold kwargs_get, expected_response_kwargs.
    rewrite lookup_insert_ne by done. rewrite lookup_insert_eq, Hv.
    reflexivity.
  - left. reflexivity.
Qed.

(** X22.  A register is write-safe exactly when its name is one of the
    twenty-three names of [WRITE_SAFE_REGISTERS]. *)
Theorem write_safe_by_name `{!EnumLaws} (r : HoldingRegister) :
  r ∈ WRITE_SAFE_REGISTERS <-> register_name r ∈ WRITE_SAFE_NAMES.
Proof.
  unfold WRITE_SAFE_REGISTERS. rewrite elem_of_list_to_set, list_elem_of_omap.
  split.
  - intros (s0 & Hs & Hr). apply register_of_name_spec in Hr. subst s0.
    exact Hs.
  - intros Hs. exists (register_name r). split; [exact Hs|].
    apply register_of_name_spec. reflexivity.
Qed.

(** X23.  The shape keys of two messages are equal exactly when those of
    the base class are and the registers are the same: the value plays no
    part in them. *)
Theorem extra_shape_hash_keys_eq
        (super_keys : Transparent -> list PyVal) (a b : t) :
  _extra_shape_hash_keys super_keys a = _extra_shape_hash_keys super_keys b
  <-> super_keys (transparent a) = super_keys (transparent b)
      /\ register a = register b.
Proof.
  unfold _extra_shape_hash_keys, register_arg. split.
  - intros Hk. apply app_inj_tail in Hk as [Hs Hr]. split; [exact Hs|].
    destruct (register a), (register b); congruence.
  - intros [-> ->]. reflexivity.
Qed.

End Codec_more.

(** ** The codec on the sample catalogue, continued *)

Lemma init_accepts_member_value_or_name_witness :
  @__init__ Sample.catalogue Sample.base WriteHoldingRegisterRequest
    Fixtures.kwargs_by_number
  = Return (Sample.write_request Sample.BATTERY_CHARGE_LIMIT 5).
Proof.
  exact (@init_accepts_member_value_or_name Sample.catalogue Sample.base
           Sample_enum_laws WriteHoldingRegisterRequest
           (<["value" := @VInt Sample.catalogue 5]> ∅)
           (@VInt Sample.catalogue 0x32) Sample.BATTERY_CHARGE_LIMIT
           (@VInt Sample.catalogue 0x1234)
           (or_intror (or_introl eq_refl)) eq_refl).
Defined.

Lemma ensure_valid_state_int_iff_witness :
  ensure_valid_state Fixtures.device_type_response = Return tt
  <-> cls Fixtures.device_type_response = WriteHoldingRegisterResponse
      \/ Sample.DEVICE_TYPE_CODE ∈ @WRITE_SAFE_REGISTERS Sample.catalogue.
Proof.
  apply (@ensure_valid_state_int_iff Sample.catalogue Sample.base
           Fixtures.device_type_response Sample.DEVICE_TYPE_CODE 5);
    reflexivity.
Defined.

Lemma encoded_request_layout_witness :
  encode (Sample.write_request Sample.BATTERY_CHARGE_LIMIT 5)
  = (Return (Sample.request_head ++ [x12; x34] ++ [x00; x05] ++ [xb5; x28]),
     @request Sample.catalogue Sample.base (VInt 0x32)
       Sample.BATTERY_CHARGE_LIMIT (VInt 5) (Some 0xB528)
       (Some (Sample.request_head ++ [x12; x34] ++ [x00; x05]
              ++ [xb5; x28]))).
Proof.
  apply (@encoded_request_layout Sample.catalogue Sample.base
           (VInt 0x32) Sample.BATTERY_CHARGE_LIMIT 5 Sample.request_head
           None None Sample_charge_limit_is_safe);
    [change (0 <= 0x1234 <= 0xFFFF); lia|lia|reflexivity|reflexivity].
Defined.

Lemma encode_out_of_range_value_witness :
  encode (Sample.write_request Sample.BATTERY_CHARGE_LIMIT 0x10000)
  = (Raise StructError,
     @request Sample.catalogue Sample.base (VInt 0x32)
       Sample.BATTERY_CHARGE_LIMIT (VInt 0x10000) None
       (Some (Sample.request_head ++ [x12; x34]))).
Proof.
  apply (@encode_out_of_range_value Sample.catalogue Sample.base
           (VInt 0x32) Sample.BATTERY_CHARGE_LIMIT 0x10000
           Sample.request_head None None Sample_charge_limit_is_safe);
    [change (0 <= 0x1234 <= 0xFFFF); lia|lia|reflexivity|reflexivity].
Defined.

Lemma decode_needs_six_bytes_witness :
  raised (fst (@_decode_inner_function Sample.catalogue Sample.base
                 WriteHoldingRegisterResponse ∅
                 {| PayloadDecoder._payload := [x12; x34; x00; x05; xb5];
                    PayloadDecoder._pointer := 0 |})) = true.
Proof.
  apply (@decode_needs_six_bytes Sample.catalogue Sample.base
           WriteHoldingRegisterResponse ∅ [x12; x34; x00; x05; xb5] 0);
    [lia|cbn; lia].
Defined.

Lemma decode_ignores_check_code_witness :
  @_decode_inner_function Sample.catalogue Sample.base
    WriteHoldingRegisterResponse ∅
    {| PayloadDecoder._payload := Fixtures.payload_device_type;
       PayloadDecoder._pointer := Z.of_nat (length [x06]) |}
  = (Return Fixtures.device_type_response,
     {| PayloadDecoder._payload := Fixtures.payload_device_type;
        PayloadDecoder._pointer := Z.of_nat (length [x06]) + 6 |}).
Proof.
  apply (@decode_ignores_check_code Sample.catalogue Sample.base
           Sample_enum_laws WriteHoldingRegisterResponse ∅
           (@VInt Sample.catalogue 0x32) Sample.DEVICE_TYPE_CODE 5 0
           [x06] []);
    [change (0 <= 0x1234 + 23 <= 0xFFFF); lia|lia|lia|reflexivity].
Defined.

Lemma decode_unknown_register_witness :
  @_decode_inner_function Sample.catalogue Sample.base
    WriteHoldingRegisterResponse ∅
    {| PayloadDecoder._payload := [x06] ++ uint16_bytes 7 ++ [x00; x05];
       PayloadDecoder._pointer := Z.of_nat (length [x06]) |}
  = (Raise ValueError,
     {| PayloadDecoder._payload := [x06] ++ uint16_bytes 7 ++ [x00; x05];
        PayloadDecoder._pointer := Z.of_nat (length [x06]) + 2 |}).
Proof.
  apply (@decode_unknown_register Sample.catalogue Sample.base
           WriteHoldingRegisterResponse ∅ 7 [x06] [x00; x05]);
    [lia|reflexivity].
Defined.

Lemma expected_response_is_valid_witness :
  exists resp,
    expected_response (Sample.write_request Sample.BATTERY_CHARGE_LIMIT 5)
    = Return resp
    /\ ensure_valid_state resp = Return tt.
Proof.
  apply (@expected_response_is_valid Sample.catalogue Sample.base
           (Sample.write_request Sample.BATTERY_CHARGE_LIMIT 5) (VInt 0x32)
           eq_refl);
    [vm_compute; reflexivity|reflexivity|reflexivity].
Defined.

Lemma write_safe_by_name_witness :
  Sample.CHARGE_TARGET_SOC ∈ @WRITE_SAFE_REGISTERS Sample.catalogue
  <-> @register_name Sample.catalogue Sample.CHARGE_TARGET_SOC
      ∈ WRITE_SAFE_NAMES.
Proof.
  apply (@write_safe_by_name Sample.catalogue Sample_enum_laws
           Sample.CHARGE_TARGET_SOC).
Defined.
